(** * Tokyo bike status tracker: station pipeline and derived metrics

    A shallow embedding of [src/tokyo_helpers.py] and of the data part of
    [src/app.py]: the feed client, the left join of status and
    information records, the random availability generator, the session
    store of the Streamlit script, and the derived metrics (utilization,
    status colour, top-5 tables). *)

From Stdlib Require Import ZArith Floats.SpecFloat.
From stdpp Require Import base tactics option list strings sorting.

Local Open Scope Z_scope.

(** ** Python exceptions and fallible results *)

Inductive exn : Type :=
| URLError            (* urllib: network failure, timeout, non-2xx answer *)
| JSONDecodeError     (* json.loads on a body that is not JSON *)
| KeyError (k : string)
| ValueError
| ZeroDivisionError
| OverflowError
| OSError             (* a C library call failed, here gmtime *)
| AttributeError.     (* a method the object does not have *)

Inductive result (A : Type) : Type :=
| Ok (a : A)
| Raise (e : exn).
Arguments Ok {A} a.
Arguments Raise {A} e.

Global Instance result_ret : MRet result := λ A a, Ok a.
Global Instance result_bind : MBind result := λ A B f r,
  match r with
  | Ok a => f a
  | Raise e => Raise e
  end.

(** ** Python numbers

    [int] is [Z].  [float] is IEEE 754 binary64, taken from the
    specification of floating-point arithmetic of the standard library. *)

Module PyFloat.

Definition prec : Z := 53.
Definition emax : Z := 1024.

Definition float : Type := spec_float.

(** The integer [z] as the pair mantissa, exponent 0; it is exact and in
    general not normalised. *)
Definition exact (z : Z) : float :=
  match z with
  | Z0 => S754_zero false
  | Zpos p => S754_finite false p 0
  | Zneg p => S754_finite true p 0
  end.

(** [float(z)]: the nearest binary64 number. *)
Definition of_int (z : Z) : float := binary_normalize prec emax z 0 false.

(** [a / b] on two [int]s: the correctly rounded quotient. *)
Definition int_true_div (a b : Z) : result float :=
  if b =? 0 then Raise ZeroDivisionError
  else
    match SFdiv prec emax (exact a) (exact b) with
    | S754_infinity _ => Raise OverflowError
    | q => Ok q
    end.

(** [x * y] on two [float]s; an overflow gives an infinity, not an
    exception. *)
Definition mul (x y : float) : float := SFmul prec emax x y.

(** [num / den] rounded to the nearest integer, ties to the even one
    ([den] positive). *)
Definition div_half_even (num den : Z) : Z :=
  let q := num / den in
  let r := num mod den in
  match 2 * r ?= den with
  | Lt => q
  | Gt => q + 1
  | Eq => if Z.even q then q else q + 1
  end.

(** [round(x, ndigits)] for a [float] and [ndigits >= 0]: the exact value
    of [x] is rounded to [ndigits] decimal places, ties to even, and the
    decimal is converted back to the nearest [float].  Infinities and NaN
    round to themselves. *)
Definition round (x : float) (ndigits : Z) : float :=
  match x with
  | S754_finite s m e =>
      let scale := 10 ^ ndigits in
      let h :=
        match e with
        | Zneg p => div_half_even (Zpos m * scale) (2 ^ Zpos p)
        | _ => Zpos m * scale * 2 ^ e
        end in
      match h with
      | Zpos p => SFdiv prec emax (S754_finite s p 0) (exact scale)
      | _ => S754_zero s
      end
  | _ => x
  end.

End PyFloat.

(** A value a metric can return: [calculate_utilization] returns the
    [int] 0 on one branch and a [float] on the other. *)
Inductive number : Type :=
| PyInt (z : Z)
| PyFloat (f : PyFloat.float).

(** ** numpy numbers

    [numpy.float64] is the same binary64; its [round] is not Python's. *)

(** numpy's [rint]: the nearest integer, ties to even. *)
Definition rint (x : PyFloat.float) : PyFloat.float :=
  match x with
  | S754_finite s m (Zneg p) =>
      match PyFloat.div_half_even (Zpos m) (2 ^ Zpos p) with
      | Zpos q => binary_normalize PyFloat.prec PyFloat.emax (cond_Zopp s (Zpos q)) 0 s
      | _ => S754_zero s
      end
  | _ => x
  end.

(** numpy's [round(decimals)] for [decimals >= 0]: multiply by the power
    of ten, [rint], divide. *)
Definition np_round (x : PyFloat.float) (decimals : Z) : PyFloat.float :=
  SFdiv PyFloat.prec PyFloat.emax
    (rint (PyFloat.mul x (PyFloat.of_int (10 ^ decimals))))
    (PyFloat.of_int (10 ^ decimals)).

(** A [numpy.int64], as a frame of integers hands its cells and its sums
    out; the value lies from [-2^63] to [2^63 - 1]. *)
Record int64 : Type := Int64 { int64_value : Z }.

(** ** Derived metrics ([src/app.py], [src/tokyo_helpers.py]) *)

(** What [calculate_utilization] asks of its two arguments: [x == 0],
    [x / y], and the [round] of the float that [x / y] gives. *)
Class Integer (I : Type) : Type := {
  eq_zero : I → bool;
  truediv : I → I → result PyFloat.float;
  round_quotient : PyFloat.float → Z → PyFloat.float
}.

(** Python's [int]: [/] is the correctly rounded quotient and raises on a
    zero divisor, the quotient is a [float] and [round] is Python's. *)
Global Instance int_Integer : Integer Z := {|
  eq_zero x := x =? 0;
  truediv := PyFloat.int_true_div;
  round_quotient := PyFloat.round
|}.

(** [numpy.int64]: [/] casts both sides to float64 and divides, a zero
    divisor gives an infinity or NaN, the quotient is a [numpy.float64] and
    [round] is numpy's. *)
Global Instance int64_Integer : Integer int64 := {|
  eq_zero x := int64_value x =? 0;
  truediv x y :=
    Ok (SFdiv PyFloat.prec PyFloat.emax
          (PyFloat.of_int (int64_value x)) (PyFloat.of_int (int64_value y)));
  round_quotient := np_round
|}.

(** [calculate_utilization], app.py lines 65-69.  The generator hands it
    [int]s; the Dashboard (line 131) and the Search page (line 255) hand it
    [numpy.int64]s.  A [numpy.float64] is a [float]. *)
Definition calculate_utilization {I : Type} `{Integer I}
    (bikes_available capacity : I) : result number :=
  if eq_zero capacity then Ok (PyInt 0)
  else
    q ← truediv bikes_available capacity;
    Ok (PyFloat (round_quotient (I:=I) (PyFloat.mul q (PyFloat.of_int 100)) 2)).

(** [get_status_color], app.py lines 52-59. *)
Definition get_status_color (bikes_available : Z) : string :=
  if 3 <? bikes_available then "green"
  else if 0 <? bikes_available then "orange"
  else "red".

(** [get_marker_color], tokyo_helpers.py lines 49-56. *)
Definition get_marker_color (num_bikes_available : Z) : string :=
  if 3 <? num_bikes_available then "green"
  else if (0 <? num_bikes_available) && (num_bikes_available <=? 3) then "yellow"
  else "red".

(** The three classes of the specification and the colours that stand for
    them in the two functions. *)
Inductive status_class : Type := class_ok | class_low | class_empty.

Definition class_of_color (c : string) : option status_class :=
  if decide (c = "green") then Some class_ok
  else if decide (c = "orange") then Some class_low
  else if decide (c = "yellow") then Some class_low
  else if decide (c = "red") then Some class_empty
  else None.

Definition statusClass (bikes : Z) : option status_class :=
  class_of_color (get_status_color bikes).

Definition markerClass (bikes : Z) : option status_class :=
  class_of_color (get_marker_color bikes).

(** ** Top-N tables ([df.nlargest(5, column)], app.py lines 320 and 325)

    pandas' [nlargest(n, column)] with its default [keep='first'] gives the
    first [n] rows of the frame sorted by [column] in descending order,
    rows of equal value staying in the order of the frame.  The sort is an
    insertion sort: a row goes in front of the first row that is not
    larger. *)
Section nlargest.
Context {A : Type} (key : A → Z).

Fixpoint insert_desc (x : A) (l : list A) : list A :=
  match l with
  | [] => [x]
  | y :: l' => if key y <=? key x then x :: y :: l' else y :: insert_desc x l'
  end.

Definition sort_values_desc (l : list A) : list A := foldr insert_desc [] l.

Definition nlargest (n : nat) (l : list A) : list A := take n (sort_values_desc l).
End nlargest.

(** ** Data model

    The rows of the two feeds, typed.  A pandas frame is the list of its
    rows; a null cell (NaN) is [None]. *)

(** Seconds since the epoch, as [datetime.utcfromtimestamp] reads them. *)
Inductive datetime : Type := utc (seconds : Z).

Global Instance datetime_eq_dec : EqDecision datetime.
Proof. solve_decision. Defined.

(** [datetime.utcfromtimestamp(x)] on an [int], with a [time_t] of 64 bits
    and the [gmtime] of glibc: a value that is no [time_t] is an
    OverflowError, one whose year [gmtime] cannot hold is an OSError, and a
    year outside 1 to 9999 is a ValueError. *)
Definition utcfromtimestamp (x : Z) : result datetime :=
  if (-62135596800 <=? x) && (x <=? 253402300799) then Ok (utc x)
  else if (-67768040609740800 <=? x) && (x <=? 67768036191676799) then Raise ValueError
  else if (- 2 ^ 63 <=? x) && (x <? 2 ^ 63) then Raise OSError
  else Raise OverflowError.

(** The datetimes a column of dtype datetime64[ns] holds: whole seconds
    from 1677-09-21 00:12:44 to 2262-04-11 23:47:16. *)
Definition in_ns_bounds (d : datetime) : bool :=
  let 'utc x := d in (-9223372036 <=? x) && (x <=? 9223372036).

(** A station of the status feed. *)
Module StationStatus.
Record t : Type := {
  station_id : string;
  is_renting : bool;
  is_returning : bool;
  is_installed : bool;
  num_bikes_available : Z;
  num_docks_available : Z;
  last_reported : Z
}.
End StationStatus.

(** A station of the information feed. *)
Module StationInfo.
Record t : Type := {
  station_id : string;
  name : string;
  lat : PyFloat.float;
  lon : PyFloat.float;
  capacity : Z;
  region_id : option string
}.
End StationInfo.

(** A row of the frame [query_station_status] returns: [last_reported] is
    a datetime and the column [time] is added. *)
Module StatusRow.
Record t : Type := {
  station_id : string;
  is_renting : bool;
  is_returning : bool;
  is_installed : bool;
  num_bikes_available : Z;
  num_docks_available : Z;
  last_reported : datetime;
  time : datetime
}.

(** The key of [drop_duplicates(['station_id', 'last_reported'])]. *)
Definition key (r : StationStatus.t) : string * Z :=
  (StationStatus.station_id r, StationStatus.last_reported r).

(** Lines 24 and 27 of tokyo_helpers.py on one row. *)
Definition of_feed (r : StationStatus.t) : result t :=
  d ← utcfromtimestamp (StationStatus.last_reported r);
  Ok {| station_id := StationStatus.station_id r;
        is_renting := StationStatus.is_renting r;
        is_returning := StationStatus.is_returning r;
        is_installed := StationStatus.is_installed r;
        num_bikes_available := StationStatus.num_bikes_available r;
        num_docks_available := StationStatus.num_docks_available r;
        last_reported := d;
        time := d |}.

(** [station['is_renting'] = True] and the two lines after it. *)
Definition set_flags (r : t) : t :=
  {| station_id := station_id r;
     is_renting := true;
     is_returning := true;
     is_installed := true;
     num_bikes_available := num_bikes_available r;
     num_docks_available := num_docks_available r;
     last_reported := last_reported r;
     time := time r |}.
End StatusRow.

(** A row of the merged frame, that is a dict of [stations_base]: the
    status columns and the information columns, null where no information
    row has the station id.  (pandas stores a column that has nulls as
    floats; a capacity is kept here as the integer it equals.) *)
Module Row.
Record t : Type := {
  status : StatusRow.t;
  name : option string;
  lat : option PyFloat.float;
  lon : option PyFloat.float;
  capacity : option Z;
  region_id : option string
}.

Definition station_id (r : t) : string := StatusRow.station_id (status r).

Definition matched (l : StatusRow.t) (i : StationInfo.t) : t :=
  {| status := l;
     name := Some (StationInfo.name i);
     lat := Some (StationInfo.lat i);
     lon := Some (StationInfo.lon i);
     capacity := Some (StationInfo.capacity i);
     region_id := StationInfo.region_id i |}.

Definition unmatched (l : StatusRow.t) : t :=
  {| status := l; name := None; lat := None; lon := None;
     capacity := None; region_id := None |}.

Definition set_flags (r : t) : t :=
  {| status := StatusRow.set_flags (status r);
     name := name r; lat := lat r; lon := lon r;
     capacity := capacity r; region_id := region_id r |}.
End Row.

(** A dict of [st.session_state.stations]: a dict of [stations_base] after
    the body of the generator loop, with the keys [bikes_available] and
    [docks_available] added and the three flags overwritten. *)
Module Station.
Record t : Type := {
  row : Row.t;
  bikes_available : Z;
  docks_available : Z
}.

Definition station_id (s : t) : string := Row.station_id (row s).
Definition capacity (s : t) : option Z := Row.capacity (row s).
Definition name (s : t) : option string := Row.name (row s).
Definition lat (s : t) : option PyFloat.float := Row.lat (row s).
Definition lon (s : t) : option PyFloat.float := Row.lon (row s).
Definition region_id (s : t) : option string := Row.region_id (row s).
Definition is_renting (s : t) : bool := StatusRow.is_renting (Row.status (row s)).
Definition is_returning (s : t) : bool := StatusRow.is_returning (Row.status (row s)).
Definition is_installed (s : t) : bool := StatusRow.is_installed (Row.status (row s)).
Definition last_reported (s : t) : datetime := StatusRow.last_reported (Row.status (row s)).
End Station.

(** ** Feed client ([src/tokyo_helpers.py]) *)

(** What an endpoint answers to [urlopen(url)], as far as lines 14-16 and
    35-37 tell the cases apart. *)
Inductive response (A : Type) : Type :=
| Unreachable                 (* urlopen raises *)
| NotJson                     (* json.loads raises *)
| NoData                      (* the document has no key 'data' *)
| NoStations                  (* data has no key 'stations' *)
| Document (stations : list A).
Arguments Unreachable {A}.
Arguments NotJson {A}.
Arguments NoData {A}.
Arguments NoStations {A}.
Arguments Document {A} stations.

(** [json.loads(urlopen(url).read().decode())['data']['stations']]. *)
Definition load_stations {A : Type} (r : response A) : result (list A) :=
  match r with
  | Unreachable => Raise URLError
  | NotJson => Raise JSONDecodeError
  | NoData => Raise (KeyError "data")
  | NoStations => Raise (KeyError "stations")
  | Document stations => Ok stations
  end.

(** [df.drop_duplicates(subset)], default [keep='first']: a row is dropped
    when an earlier row has the same values in the columns of [subset]. *)
Section drop_duplicates.
Context {A K : Type} `{EqDecision K} (subset : A → K).

Fixpoint drop_duplicates_seen (seen : list K) (df : list A) : list A :=
  match df with
  | [] => []
  | r :: df' =>
      if decide (subset r ∈ seen) then drop_duplicates_seen seen df'
      else r :: drop_duplicates_seen (subset r :: seen) df'
  end.

Definition drop_duplicates (df : list A) : list A := drop_duplicates_seen [] df.
End drop_duplicates.

(** [mapM] on [result]: the first exception wins. *)
Fixpoint map_result {A B : Type} (f : A → result B) (l : list A) : result (list B) :=
  match l with
  | [] => Ok []
  | x :: l' => y ← f x; ys ← map_result f l'; Ok (y :: ys)
  end.

(** Lines 19-21 of tokyo_helpers.py: the two filters and the removal of
    duplicates. *)
Definition active_stations (df : list StationStatus.t) : list StationStatus.t :=
  let df := filter (λ r, StationStatus.is_renting r = true) df in
  let df := filter (λ r, StationStatus.is_returning r = true) df in
  drop_duplicates StatusRow.key df.

(** Lines 28 and 29: [df.index = df['time']] and
    [df.index.tz_localize('UTC')].  The index has the method only if it is
    a DatetimeIndex, that is if the column is of dtype datetime64[ns]: the
    column of a frame without rows still holds the integers of the feed,
    and a column with a datetime out of bounds holds Python objects
    (pandas 2). *)
Definition tz_localize (df : list StatusRow.t) : result (list StatusRow.t) :=
  match df with
  | [] => Raise AttributeError
  | _ =>
      if forallb (λ row, in_ns_bounds (StatusRow.time row)) df then Ok df
      else Raise AttributeError
  end.

(** [query_station_status], tokyo_helpers.py lines 12-31, applied to what
    the endpoint answers.  A frame made from an empty list has no column, so
    [df['is_renting']] raises. *)
Definition query_station_status (r : response StationStatus.t) : result (list StatusRow.t) :=
  stations ← load_stations r;
  match stations with
  | [] => Raise (KeyError "is_renting")
  | _ =>
      df ← map_result StatusRow.of_feed (active_stations stations);
      tz_localize df
  end.

(** [get_station_latlon], tokyo_helpers.py lines 33-39. *)
Definition get_station_latlon (r : response StationInfo.t) : result (list StationInfo.t) :=
  load_stations r.

(** ** Reconciler *)

(** [left.merge(right, on='station_id', how='left')]: for each left row, in
    order, one output row per right row with the same station id, in the
    order of the right frame, and one row with nulls when there is none.  A
    right frame made from an empty list has no column [station_id]. *)
Definition merge_left (left : list StatusRow.t) (right : list StationInfo.t) : result (list Row.t) :=
  match right with
  | [] => Raise (KeyError "station_id")
  | _ =>
      Ok (l ← left;
          match filter (λ i, StationInfo.station_id i = StatusRow.station_id l) right with
          | [] => [Row.unmatched l]
          | matches => Row.matched l <$> matches
          end)
  end.

(** [join_latlon], tokyo_helpers.py lines 41-47: the same merge on the
    columns station_id, lat, lon, name and capacity of [df2]; the output has
    no region column, which reads as null here. *)
Definition join_latlon (df1 : list StatusRow.t) (df2 : list StationInfo.t) : result (list Row.t) :=
  merge_left df1
    ((λ i, {| StationInfo.station_id := StationInfo.station_id i;
              StationInfo.name := StationInfo.name i;
              StationInfo.lat := StationInfo.lat i;
              StationInfo.lon := StationInfo.lon i;
              StationInfo.capacity := StationInfo.capacity i;
              StationInfo.region_id := None |}) <$> df2).

(** ** Random numbers

    The module-level generator of Python's [random]: [randbelow n g] is
    [_randbelow(n)], a number below [n] and the generator after the draw. *)
Class RandomGen (G : Type) : Type := {
  randbelow : Z → G → Z * G;
  randbelow_range : ∀ n g, 0 < n → 0 ≤ (randbelow n g).1 < n
}.

(** A linear congruential generator, to run the script on. *)
Definition lcg_next (g : Z) : Z := (1103515245 * g + 12345) mod 2 ^ 31.

#[global, refine] Instance lcg : RandomGen Z := {|
  randbelow n g := (g mod n, lcg_next g)
|}.
Proof. intros n g Hn. simpl. apply Z.mod_pos_bound. exact Hn. Defined.

(** ** Session store and script ([src/app.py]) *)

(** [st.session_state] once line 77 and 78 have run. *)
Record snapshot : Type := {
  last_update : Z;
  stations : list Station.t
}.

(** The two endpoints at the time of one run of the script. *)
Record network : Type := {
  station_status_url : response StationStatus.t;
  station_info_url : response StationInfo.t
}.

(** A call of [urlopen], with the answer it got. *)
Inductive request : Type :=
| GetStatus (r : response StationStatus.t)
| GetInfo (r : response StationInfo.t).

Section Script.
Context {G : Type} `{RandomGen G}.

(** What outlives a run of the script: the session state, the entry of
    [st.cache_data] for [query_station_status], the state of [random], and
    the calls of [urlopen] made so far. *)
Record world : Type := {
  session_state : option snapshot;
  cache_data : option (list StatusRow.t);
  random : G;
  requests : list request
}.

Definition initial (g : G) : world :=
  {| session_state := None; cache_data := None; random := g; requests := [] |}.

(** A computation of the script: it reads and writes the world and may
    raise; what it wrote before raising stays written. *)
Definition M (A : Type) : Type := world → result A * world.

#[global] Instance M_ret : MRet M := λ A a w, (Ok a, w).
#[global] Instance M_bind : MBind M := λ A B f m w,
  match m w with
  | (Ok a, w') => f a w'
  | (Raise e, w') => (Raise e, w')
  end.

Definition raise {A : Type} (e : exn) : M A := λ w, (Raise e, w).

Definition lift {A : Type} (r : result A) : M A := λ w, (r, w).

Definition urlopen (q : request) : M unit := λ w,
  (Ok (),
   {| session_state := session_state w; cache_data := cache_data w;
      random := random w; requests := requests w ++ [q] |}).

Definition get_cache : M (option (list StatusRow.t)) := λ w, (Ok (cache_data w), w).

Definition put_cache (df : list StatusRow.t) : M unit := λ w,
  (Ok (),
   {| session_state := session_state w; cache_data := Some df;
      random := random w; requests := requests w |}).

Definition get_session : M (option snapshot) := λ w, (Ok (session_state w), w).

Definition put_session (s : snapshot) : M unit := λ w,
  (Ok (),
   {| session_state := Some s; cache_data := cache_data w;
      random := random w; requests := requests w |}).

(** [random.randint(a, b)]: [a + _randbelow(b - a + 1)], and ValueError on
    an empty range. *)
Definition randint (a b : Z) : M Z := λ w,
  if 0 <? b - a + 1 then
    let '(r, g) := randbelow (b - a + 1) (random w) in
    (Ok (a + r),
     {| session_state := session_state w; cache_data := cache_data w;
        random := g; requests := requests w |})
  else (Raise ValueError, w).

(** [get_random_availability], app.py lines 48-50.  A null capacity is a
    NaN, which [randint] refuses (with ValueError up to Python 3.11, with
    TypeError from 3.12 on; ValueError here). *)
Definition get_random_availability (capacity : option Z) : M Z :=
  match capacity with
  | Some c => randint 0 c
  | None => raise ValueError
  end.

(** [st.session_state.stations.append(station)]. *)
Definition append_station (s : Station.t) : M unit :=
  st ← get_session;
  match st with
  | Some snap =>
      put_session {| last_update := last_update snap; stations := stations snap ++ [s] |}
  | None => raise (KeyError "stations")
  end.

(** The body of the loops of lines 79-85 and 337-343, which are the same.
    The branch of a null capacity is dead: [get_random_availability] has
    raised before. *)
Definition generate_station (station : Row.t) : M unit :=
  bikes ← get_random_availability (Row.capacity station);
  match Row.capacity station with
  | Some capacity =>
      append_station {| Station.row := Row.set_flags station;
                        Station.bikes_available := bikes;
                        Station.docks_available := capacity - bikes |}
  | None => raise ValueError
  end.

Fixpoint generate_stations (stations_base : list Row.t) : M unit :=
  match stations_base with
  | [] => mret ()
  | station :: rest => generate_station station;; generate_stations rest
  end.

(** Lines 77-85 and 335-343: the timestamp, the empty list and the loop. *)
Definition regenerate (now : Z) (stations_base : list Row.t) : M unit :=
  put_session {| last_update := now; stations := [] |};;
  generate_stations stations_base.

(** [query_station_status(station_status_url)] under [@st.cache_data]: the
    frame of an earlier call when there is one; an exception is not
    cached. *)
Definition cached_query_station_status (net : network) : M (list StatusRow.t) :=
  c ← get_cache;
  match c with
  | Some df => mret df
  | None =>
      urlopen (GetStatus (station_status_url net));;
      df ← lift (query_station_status (station_status_url net));
      put_cache df;;
      mret df
  end.

(** [get_station_latlon(station_info_url)], which has no cache. *)
Definition fetch_station_latlon (net : network) : M (list StationInfo.t) :=
  urlopen (GetInfo (station_info_url net));;
  lift (get_station_latlon (station_info_url net)).

Inductive page : Type := Dashboard | Stations | Map | Search | Analytics | Settings.

(** One run of the script, from line 42 to the point where the selected
    page reads [st.session_state.stations], or to the end of the handler of
    the refresh button: [now] is what [datetime.now()] answers,
    [refresh_button] whether the button of the Settings page was pressed.
    Streamlit runs the script from the top on every interaction, so a read
    of the snapshot and a refresh are each one run.  The value is the list
    stored when the run ends.  Lines 46 and 71 compute the same merge. *)
Definition script (net : network) (now : Z) (p : page) (refresh_button : bool)
  : M (list Station.t) :=
  station_status_df ← cached_query_station_status net;
  station_info_df ← fetch_station_latlon net;
  _ ← lift (merge_left station_status_df station_info_df);
  stations_base ← lift (merge_left station_status_df station_info_df);
  st ← get_session;
  match st with
  | None => regenerate now stations_base
  | Some _ => mret ()
  end;;
  match p with
  | Settings => if refresh_button then regenerate now stations_base else mret ()
  | _ => mret ()
  end;;
  st ← get_session;
  match st with
  | Some snap => mret (stations snap)
  | None => raise (KeyError "stations")
  end.

(** The two operations of the session store. *)
Definition getSnapshot (net : network) (now : Z) (p : page) : M (list Station.t) :=
  script net now p false.

Definition refresh (net : network) (now : Z) : M (list Station.t) :=
  script net now Settings true.

(** The worlds the application can be in: it starts with nothing stored
    and runs the script any number of times; a new browser session starts
    with an empty session state; the cache can be cleared from Streamlit's
    menu. *)
Inductive reachable : world → Prop :=
| reachable_initial g : reachable (initial g)
| reachable_run w net now p b : reachable w → reachable (script net now p b w).2
| reachable_new_session w :
    reachable w →
    reachable {| session_state := None; cache_data := cache_data w;
                 random := random w; requests := requests w |}
| reachable_clear_cache w :
    reachable w →
    reachable {| session_state := session_state w; cache_data := None;
                 random := random w; requests := requests w |}.

End Script.

(** ** Top-5 tables of the Analytics page *)

(** [df.nlargest(5, 'bikes_available')[['name', 'bikes_available', 'capacity']]]. *)
Definition top_bikes (df : list Station.t) : list (option string * Z * option Z) :=
  (λ s, (Station.name s, Station.bikes_available s, Station.capacity s))
    <$> nlargest Station.bikes_available 5 df.

(** [df.nlargest(5, 'docks_available')[['name', 'docks_available', 'capacity']]]. *)
Definition top_docks (df : list Station.t) : list (option string * Z * option Z) :=
  (λ s, (Station.name s, Station.docks_available s, Station.capacity s))
    <$> nlargest Station.docks_available 5 df.

(** ** Route helpers ([src/tokyo_helpers.py], lines 58-142) *)

(** The exceptions these helpers can raise: an index out of range, a
    subscript on [None], and those of the feed client. *)
Inductive raised : Type :=
| IndexError
| TypeError
| Builtin (e : exn).

Inductive outcome (A : Type) : Type :=
| Return (a : A)
| Throw (e : raised).
Arguments Return {A} a.
Arguments Throw {A} e.

Global Instance outcome_ret : MRet outcome := λ A a, Return a.
Global Instance outcome_bind : MBind outcome := λ A B f r,
  match r with
  | Return a => f a
  | Throw e => Throw e
  end.

Definition of_result {A : Type} (r : result A) : outcome A :=
  match r with
  | Ok a => Return a
  | Raise e => Throw (Builtin e)
  end.

(** What [geocode] returns: the empty string, or a pair. *)
Inductive position : Type :=
| Nowhere
| At (latitude longitude : PyFloat.float).

(** What [geolocator.geocode(address)] does. *)
Inductive nominatim_answer : Type :=
| GeocoderError
| NoLocation
| Location (latitude longitude : PyFloat.float).

(** [geocode], lines 58-68, applied to what the geocoder answers. *)
Definition geocode (a : nominatim_answer) : position :=
  match a with
  | GeocoderError => Nowhere
  | NoLocation => Nowhere
  | Location latitude longitude => At latitude longitude
  end.

(** What [get_bike_availability] and [get_dock_availability] return beside
    [None]: the list station_id, lat, lon. *)
Definition chosen_station : Type := string * option PyFloat.float * option PyFloat.float.

(** [get_bike_availability] and [get_dock_availability], lines 70-114, on
    a frame with the default index, as a merge returns it.  [geodesic] is
    geopy's distance in km, which may refuse its arguments; the distances
    are values of a type [D] that [lt] orders. *)
Section availability.
Context {L D : Type} `{EqDecision D} (lt : relation D) `{RelDecision D D lt}.
Context (geodesic : L → option PyFloat.float → option PyFloat.float → result D).

(** The loop of lines 76-78: the distance of every row, in order. *)
Definition with_distance (latlon : L) (df : list Row.t) : result (list (Row.t * D)) :=
  map_result (λ row, d ← geodesic latlon (Row.lat row) (Row.lon row); Ok (row, d)) df.

(** Python's [min]: an item replaces the best one when it is smaller. *)
Fixpoint min_from (best : D) (l : list D) : D :=
  match l with
  | [] => best
  | x :: l' => min_from (if decide (lt x best) then x else best) l'
  end.

(** The two functions differ in the column [available] only. *)
Definition closest_available (available : Row.t → Z) (latlon : L) (df : list Row.t)
  : outcome (option chosen_station) :=
  df ← of_result (with_distance latlon df);
  let df := filter (λ rd, 0 < available rd.1) df in
  match df with
  | [] => Return None
  | rd0 :: rest =>
      let nearest := min_from rd0.2 (snd <$> rest) in
      match filter (λ rd, rd.2 = nearest) df with
      | [] => Throw IndexError
      | rd :: _ => Return (Some (Row.station_id rd.1, Row.lat rd.1, Row.lon rd.1))
      end
  end.

Definition get_bike_availability : L → list Row.t → outcome (option chosen_station) :=
  closest_available (λ row, StatusRow.num_bikes_available (Row.status row)).

Definition get_dock_availability : L → list Row.t → outcome (option chosen_station) :=
  closest_available (λ row, StatusRow.num_docks_available (Row.status row)).
End availability.

(** The request of [run_osrm]: the url holds the start, longitude first,
    and the end, longitude first. *)
Record route_query : Type := {
  start_lon : PyFloat.float;
  start_lat : PyFloat.float;
  end_lon : option PyFloat.float;
  end_lat : option PyFloat.float
}.

(** A route of the answer: [geometry.coordinates], a list of points that
    are lists of numbers, and [duration]; [None] is a missing key. *)
Record route : Type := {
  coordinates : option (list (list number));
  duration : option number
}.

(** What [requests.get(url).json()] does: it raises, or gives a document
    with or without the key [routes]. *)
Inductive osrm_answer : Type :=
| NoAnswer
| Routes (routes : option (list route)).

(** [[lst[i][1], lst[i][0]]]. *)
Definition swap_point (p : list number) : option (number * number) :=
  lat ← p !! 1%nat; lon ← p !! 0%nat; Some (lat, lon).

(** [routejson['routes'][0]['duration'] / 60]. *)
Definition minutes (d : number) : option PyFloat.float :=
  match d with
  | PyInt z =>
      match PyFloat.int_true_div z 60 with
      | Ok q => Some q
      | Raise _ => None
      end
  | PyFloat f => Some (SFdiv PyFloat.prec PyFloat.emax f (PyFloat.of_int 60))
  end.

(** The body of the [try] of lines 124-139; [None] is an exception, which
    line 140 catches. *)
Definition read_route (a : osrm_answer) : option (list (number * number) * PyFloat.float) :=
  match a with
  | NoAnswer => None
  | Routes routes =>
      routes ← routes;
      r ← head routes;
      lst ← coordinates r;
      coords ← mapM swap_point lst;
      d ← duration r;
      m ← minutes d;
      Some (coords, PyFloat.round m 1)
  end.

(** [run_osrm], lines 116-142.  The value [None] stands for the pair
    [(None, None)]. *)
Definition run_osrm (osrm : route_query → osrm_answer)
    (chosen : option chosen_station) (iamhere : position)
  : outcome (option (list (number * number) * PyFloat.float)) :=
  match iamhere with
  | Nowhere => Throw IndexError
  | At latitude longitude =>
      match chosen with
      | None => Throw TypeError
      | Some (_, lat, lon) =>
          Return (read_route (osrm {| start_lon := longitude; start_lat := latitude;
                                      end_lon := lon; end_lat := lat |}))
      end
  end.

(** ** Utilization column ([calculate_station_utilization], lines 144-148) *)

(** A cell of [(df['num_bikes_available'] / df['capacity'] * 100).round(2)]:
    the two integers are cast to float, a null capacity is NaN, and a
    division by zero gives an infinity or NaN, not an exception. *)
Definition utilization_rate (num_bikes_available : Z) (capacity : option Z) : PyFloat.float :=
  np_round
    (PyFloat.mul
       (SFdiv PyFloat.prec PyFloat.emax
          (PyFloat.of_int num_bikes_available)
          (match capacity with
           | Some c => PyFloat.of_int c
           | None => S754_nan
           end))
       (PyFloat.of_int 100))
    2.

(** [calculate_station_utilization] on a merged frame, which has the
    column [capacity]: the frame with the column [utilization_rate]. *)
Definition calculate_station_utilization (df : list Row.t) : list (Row.t * PyFloat.float) :=
  (λ row, (row, utilization_rate (StatusRow.num_bikes_available (Row.status row))
                  (Row.capacity row))) <$> df.

(** ** Dashboard metrics ([src/app.py], lines 101-136) *)

(** [pd.DataFrame(records)[name]]: a frame made from an empty list has no
    column. *)
Definition column {A B : Type} (name : string) (f : A → B) (records : list A)
  : result (list B) :=
  match records with
  | [] => Raise (KeyError name)
  | _ => Ok (f <$> records)
  end.

(** The sum of a column of integers.  A column whose values all fit 64
    signed bits is of dtype int64 and its sum wraps around; one of larger
    values that all fit 64 unsigned bits is of dtype uint64; any other
    holds Python integers. *)
Definition wrap64 (z : Z) : Z := (z + 2 ^ 63) mod 2 ^ 64 - 2 ^ 63.

Definition in_int64 (z : Z) : bool := (- 2 ^ 63 <=? z) && (z <? 2 ^ 63).

Definition in_uint64 (z : Z) : bool := (0 <=? z) && (z <? 2 ^ 64).

Definition int_column_sum (l : list Z) : Z :=
  if forallb in_int64 l then wrap64 (foldr Z.add 0 l)
  else if forallb in_uint64 l then foldr Z.add 0 l mod 2 ^ 64
  else foldr Z.add 0 l.

(** [len(df)]. *)
Definition total_stations (stations : list Station.t) : nat := length stations.

(** [int(df['bikes_available'].sum())]. *)
Definition total_bikes (stations : list Station.t) : result Z :=
  col ← column "bikes_available" Station.bikes_available stations;
  Ok (int_column_sum col).

(** [int(df['docks_available'].sum())]. *)
Definition total_docks (stations : list Station.t) : result Z :=
  col ← column "docks_available" Station.docks_available stations;
  Ok (int_column_sum col).

(** [len(df[df['is_renting'] == True])]. *)
Definition stations_active (stations : list Station.t) : result nat :=
  col ← column "is_renting" Station.is_renting stations;
  Ok (length (filter (λ b, b = true) col)).

(** ** Search page ([src/app.py], lines 228-240) *)

(** [Series.unique()]: the values in the order of their first appearance. *)
Fixpoint unique_seen {A : Type} `{EqDecision A} (seen l : list A) : list A :=
  match l with
  | [] => []
  | x :: l =>
      if decide (x ∈ seen) then unique_seen seen l
      else x :: unique_seen (x :: seen) l
  end.

Definition unique {A : Type} `{EqDecision A} (l : list A) : list A := unique_seen [] l.

(** [df['name'].unique()], the options of the select box. *)
Definition station_names (stations : list Station.t) : result (list (option string)) :=
  col ← column "name" Station.name stations;
  Ok (unique col).

(** A cell of [df['name'] == station_name]: a null name equals nothing. *)
Definition name_eq (name station_name : option string) : bool :=
  match name, station_name with
  | Some a, Some b => bool_decide (a = b)
  | _, _ => false
  end.

(** [df[df['name'] == station_name].iloc[0]]. *)
Definition station_data (stations : list Station.t) (station_name : option string)
  : outcome Station.t :=
  col ← of_result (column "name" Station.name stations);
  match filter (λ s, name_eq (Station.name s) station_name = true) stations with
  | [] => Throw IndexError
  | s :: _ => Return s
  end.

(** ** Specifications *)

(** [top] is the top-[n] selection of [df] by [key]: [n] rows if there are
    as many, in descending order, no row left out that is larger than a row
    taken, and rows of equal [key] taken and listed in the order of [df]. *)
Definition top_n_of {A : Type} (key : A → Z) (n : nat) (df top : list A) : Prop :=
  length top = min n (length df)
  ∧ StronglySorted (λ x y, key y ≤ key x) top
  ∧ (∃ rest, df ≡ₚ top ++ rest ∧ ∀ x y, x ∈ top → y ∈ rest → key y ≤ key x)
  ∧ ∀ k, filter (λ x, key x = k) top `prefix_of` filter (λ x, key x = k) df.

(** [k] is the integer nearest to [scale * |x|], the even one if two are
    as near; the value of the float is [m * 2^e]. *)
Definition nearest_even (scale : Z) (x : PyFloat.float) (k : Z) : Prop :=
  match x with
  | S754_finite _ m e =>
      let num := scale * Zpos m * 2 ^ Z.max e 0 in
      let den := 2 ^ Z.max (- e) 0 in
      2 * Z.abs (num - k * den) ≤ den
      ∧ (2 * Z.abs (num - k * den) = den → Z.even k = true)
  | S754_zero _ => k = 0
  | _ => False
  end.

(** The float nearest to the decimal [k / 10^ndigits], with the sign [s]. *)
Definition of_decimal (s : bool) (k ndigits : Z) : PyFloat.float :=
  match k with
  | Zpos p =>
      SFdiv PyFloat.prec PyFloat.emax (S754_finite s p 0) (PyFloat.exact (10 ^ ndigits))
  | _ => S754_zero s
  end.

(** [r] is [x] rounded to [ndigits] decimal places: the float nearest to
    the decimal of [ndigits] places nearest to the value of [x]. *)
Definition rounded (ndigits : Z) (x r : PyFloat.float) : Prop :=
  match x with
  | S754_finite s _ _ | S754_zero s =>
      ∃ k, 0 ≤ k ∧ nearest_even (10 ^ ndigits) x k ∧ r = of_decimal s k ndigits
  | _ => r = x
  end.

(** [r] is the integer nearest to the value of [y], as a float. *)
Definition is_rint (y r : PyFloat.float) : Prop :=
  match y with
  | S754_finite s m e =>
      ∃ k, 0 ≤ k ∧ nearest_even 1 y k
        ∧ (0 ≤ e → r = y)
        ∧ (e < 0 → r = if k =? 0 then S754_zero s else PyFloat.of_int (cond_Zopp s k))
  | _ => r = y
  end.

(** [r] is [x] rounded to [ndigits] decimal places in float arithmetic:
    the float product of [x] and [10^ndigits] is rounded to the nearest
    integer, and [r] is the float quotient of that integer and
    [10^ndigits]. *)
Definition np_rounded (ndigits : Z) (x r : PyFloat.float) : Prop :=
  ∃ y, is_rint (PyFloat.mul x (PyFloat.of_int (10 ^ ndigits))) y
    ∧ r = SFdiv PyFloat.prec PyFloat.emax y (PyFloat.of_int (10 ^ ndigits)).

(** [calculate_utilization bikes capacity] is a float from 0.0 to 100.0. *)
Definition is_percentage (bikes capacity : Z) : bool :=
  match calculate_utilization bikes capacity with
  | Ok (PyFloat f) => SFleb (S754_zero false) f && SFleb f (PyFloat.of_int 100)
  | _ => false
  end.

(** The information records that have the station id of a status row, in
    the order of the information feed. *)
Definition records_of (right : list StationInfo.t) (l : StatusRow.t) : list StationInfo.t :=
  filter (λ i, StationInfo.station_id i = StatusRow.station_id l) right.

(** The rows of the merged frame that come from the status row [l]: the
    row with nulls when [l] has no information record, and one row per
    record otherwise. *)
Definition rows_of (right : list StationInfo.t) (l : StatusRow.t) (g : list Row.t) : Prop :=
  (records_of right l = [] ∧ g = [Row.unmatched l])
  ∨ (records_of right l ≠ [] ∧ g = Row.matched l <$> records_of right l).

(** The row [merge_left] makes of a left row when the station ids of the
    right frame are distinct. *)
Definition merge_row (right : list StationInfo.t) (l : StatusRow.t) : Row.t :=
  match filter (λ i, StationInfo.station_id i = StatusRow.station_id l) right with
  | [] => Row.unmatched l
  | i :: _ => Row.matched l i
  end.

(** [s] is what the generator loop makes of the row [row]. *)
Definition generated (row : Row.t) (s : Station.t) : Prop :=
  Station.row s = Row.set_flags row
  ∧ ∃ c, Row.capacity row = Some c
      ∧ 0 ≤ Station.bikes_available s ≤ c
      ∧ Station.docks_available s = c - Station.bikes_available s.

(** The capacity the generator needs: a non-negative integer. *)
Definition valid_capacity (row : Row.t) : Prop :=
  ∃ c, Row.capacity row = Some c ∧ 0 ≤ c.

(** The frame a run works on: the cached one, or the one it fetches. *)
Definition status_frame {G : Type} (net : network) (w : @world G) : result (list StatusRow.t) :=
  match cache_data w with
  | Some df => Ok df
  | None => query_station_status (station_status_url net)
  end.

(** [stations_base] of a run, lines 42-73 without their effects. *)
Definition stations_base {G : Type} (net : network) (w : @world G) : result (list Row.t) :=
  df ← status_frame net w;
  info ← get_station_latlon (station_info_url net);
  merge_left df info.

(** The calls of [urlopen] of a run that gets as far as line 43. *)
Definition run_requests {G : Type} (net : network) (w : @world G) : list request :=
  match cache_data w with
  | Some _ => []
  | None => [GetStatus (station_status_url net)]
  end ++ [GetInfo (station_info_url net)].

(** Whether a run enters the handler of the refresh button. *)
Definition refreshing (p : page) (refresh_button : bool) : bool :=
  match p with
  | Settings => refresh_button
  | _ => false
  end.

(** The session state [ss] and the value [res] of a run that has run the
    generator loop over [rows] at time [now]: the loop may have stopped at
    a row whose capacity is not valid. *)
Definition regenerated (now : Z) (rows : list Row.t)
    (res : result (list Station.t)) (ss : option snapshot) : Prop :=
  ∃ new,
    ss = Some {| last_update := now; stations := new |}
    ∧ Forall2 generated (take (length new) rows) new
    ∧ (Forall valid_capacity rows → res = Ok new)
    ∧ (res = Ok new ∧ length new = length rows
       ∨ res = Raise ValueError
         ∧ ∃ row, rows !! length new = Some row ∧ ¬ valid_capacity row).

(** [df] is the frame of a status feed that was fetched. *)
Definition fetched_frame {G : Type} (w : @world G) (df : list StatusRow.t) : Prop :=
  ∃ r, GetStatus r ∈ requests w ∧ query_station_status r = Ok df.

(** Where the stored data comes from: the cached frame was fetched, and
    every stored station was generated from a merged row of a fetched
    frame. *)
Definition provenance {G : Type} (w : @world G) : Prop :=
  (∀ df, cache_data w = Some df → fetched_frame w df)
  ∧ ∀ snap s, session_state w = Some snap → s ∈ stations snap →
      ∃ row df, generated row s ∧ Row.status row ∈ df ∧ fetched_frame w df.

(** ** Sample feeds, for the examples *)

Module Sample.

Definition status (id : string) (renting : bool) (reported : Z) : StationStatus.t :=
  {| StationStatus.station_id := id;
     StationStatus.is_renting := renting;
     StationStatus.is_returning := true;
     StationStatus.is_installed := true;
     StationStatus.num_bikes_available := 2;
     StationStatus.num_docks_available := 8;
     StationStatus.last_reported := reported |}.

Definition info (id name : string) (capacity : Z) : StationInfo.t :=
  {| StationInfo.station_id := id;
     StationInfo.name := name;
     StationInfo.lat := PyFloat.of_int 35;
     StationInfo.lon := PyFloat.of_int 139;
     StationInfo.capacity := capacity;
     StationInfo.region_id := Some "13" |}.

Definition status_row (id : string) (reported : Z) : StatusRow.t :=
  {| StatusRow.station_id := id;
     StatusRow.is_renting := true;
     StatusRow.is_returning := true;
     StatusRow.is_installed := true;
     StatusRow.num_bikes_available := 2;
     StatusRow.num_docks_available := 8;
     StatusRow.last_reported := utc reported;
     StatusRow.time := utc reported |}.

Definition station (id : string) (capacity bikes : Z) : Station.t :=
  {| Station.row := Row.matched (status_row id 1700000000) (info id id capacity);
     Station.bikes_available := bikes;
     Station.docks_available := capacity - bikes |}.

(** Seven stations with 0 to 6 bikes. *)
Definition seven : list Station.t :=
  [station "a" 6 0; station "b" 6 1; station "c" 6 2; station "d" 6 3;
   station "e" 6 4; station "f" 6 5; station "g" 6 6].

(** Six stations, three of them with 5 bikes and two with 3. *)
Definition ties : list Station.t :=
  [station "a" 6 3; station "b" 6 5; station "c" 6 3; station "d" 6 5;
   station "e" 6 1; station "f" 6 5].

(** Two active stations and one that is not renting; every station has
    its information record. *)
Definition net : network :=
  {| station_status_url :=
       Document [status "A" true 1700000000; status "B" true 1700000030;
                 status "C" false 1700000030];
     station_info_url :=
       Document [info "A" "Tokyo Station" 10; info "B" "Ginza" 7; info "C" "Ueno" 12] |}.

(** The same feeds with the information endpoint down. *)
Definition net_down : network :=
  {| station_status_url := station_status_url net;
     station_info_url := Unreachable |}.

(** The same status feed; the information feed has a new capacity for A
    and lists B twice. *)
Definition net_changed : network :=
  {| station_status_url := station_status_url net;
     station_info_url :=
       Document [info "A" "Tokyo Station" 12; info "B" "Ginza" 7;
                 info "B" "Ginza East" 9] |}.

(** Both feeds load, and station A has no information record. *)
Definition net_unmatched : network :=
  {| station_status_url := Document [status "A" true 1700000000];
     station_info_url := Document [info "B" "Ginza" 7] |}.

(** A session that has read its snapshot once. *)
Definition materialized : @world Z :=
  (getSnapshot net 1700000100 Dashboard (initial 7)).2.

(** The list a run reconciles from these feeds: C is not renting. *)
Definition rows : list Row.t :=
  [Row.matched (status_row "A" 1700000000) (info "A" "Tokyo Station" 10);
   Row.matched (status_row "B" 1700000030) (info "B" "Ginza" 7)].

(** The stations it stores: the generator seeded with 7 draws 7 and 4. *)
Definition stored : list Station.t :=
  [{| Station.row := Row.matched (status_row "A" 1700000000) (info "A" "Tokyo Station" 10);
      Station.bikes_available := 7;
      Station.docks_available := 3 |};
   {| Station.row := Row.matched (status_row "B" 1700000030) (info "B" "Ginza" 7);
      Station.bikes_available := 4;
      Station.docks_available := 3 |}].

End Sample.

(** Every stored station carries the columns of an information record
    that was fetched and has its station id. *)
Definition described {G : Type} (w : @world G) : Prop :=
  ∀ snap s, session_state w = Some snap → s ∈ stations snap →
    ∃ l i info,
      GetInfo (Document info) ∈ requests w ∧ i ∈ info
      ∧ StationInfo.station_id i = Station.station_id s
      ∧ Station.row s = Row.set_flags (Row.matched l i).

(** ** Sample data for the route helpers *)

Module RouteSample.

(** A toy distance: the stations lie on a line, at the point their
    latitude names; a row without coordinates is refused. *)
Definition line_distance (here : Z) (lat lon : option PyFloat.float) : result Z :=
  match lat, lon with
  | Some (S754_finite false m 0), Some _ => Ok (Z.abs (Zpos m - here))
  | _, _ => Raise ValueError
  end.

Definition row (id : string) (at_km bikes docks : Z) : Row.t :=
  {| Row.status :=
       {| StatusRow.station_id := id;
          StatusRow.is_renting := true;
          StatusRow.is_returning := true;
          StatusRow.is_installed := true;
          StatusRow.num_bikes_available := bikes;
          StatusRow.num_docks_available := docks;
          StatusRow.last_reported := utc 1700000000;
          StatusRow.time := utc 1700000000 |};
     Row.name := Some id;
     Row.lat := Some (PyFloat.exact at_km);
     Row.lon := Some (PyFloat.exact 139);
     Row.capacity := Some (bikes + docks);
     Row.region_id := None |}.

(** Four stations: A is the closest to km 4 and has no bike; B and D are
    as far away. *)
Definition frame : list Row.t :=
  [row "A" 5 0 6; row "B" 9 3 0; row "C" 1 2 4; row "D" 9 1 5].

(** A status feed and an information feed for the line: B is not
    renting. *)
Definition status (id : string) (renting : bool) (bikes : Z) : StationStatus.t :=
  {| StationStatus.station_id := id;
     StationStatus.is_renting := renting;
     StationStatus.is_returning := true;
     StationStatus.is_installed := true;
     StationStatus.num_bikes_available := bikes;
     StationStatus.num_docks_available := 1;
     StationStatus.last_reported := 1700000000 |}.

Definition info (id : string) (at_km : Z) : StationInfo.t :=
  {| StationInfo.station_id := id;
     StationInfo.name := id;
     StationInfo.lat := PyFloat.exact at_km;
     StationInfo.lon := PyFloat.exact 139;
     StationInfo.capacity := 10;
     StationInfo.region_id := None |}.

Definition feed : list StationStatus.t :=
  [status "A" true 0; status "B" false 5; status "D" true 2; status "E" true 4].

Definition information : list StationInfo.t :=
  [info "A" 5; info "B" 4; info "D" 9; info "E" 2].

(** A route of two points, 90 seconds long. *)
Definition answer (q : route_query) : osrm_answer :=
  Routes (Some [{| coordinates :=
                     Some [[PyInt 139; PyInt 35]; [PyInt 140; PyInt 36; PyInt 7]];
                   duration := Some (PyInt 90) |}]).

End RouteSample.

(** * Properties *)

(** ** Derived metrics *)

Lemma int_true_div_nonzero (a b : Z) :
  b ≠ 0 → PyFloat.int_true_div a b ≠ Raise ZeroDivisionError.
Proof.
  intros Hb. unfold PyFloat.int_true_div.
  destruct (Z.eqb_spec b 0) as [->|_]; [done|].
  by destruct (SFdiv _ _ _ _).
Qed.

(** The quotient and the remainder pin the nearest integer. *)
Lemma div_half_even_spec (num den : Z) :
  0 ≤ num → 0 < den →
  0 ≤ PyFloat.div_half_even num den
  ∧ 2 * Z.abs (num - PyFloat.div_half_even num den * den) ≤ den
  ∧ (2 * Z.abs (num - PyFloat.div_half_even num den * den) = den →
     Z.even (PyFloat.div_half_even num den) = true).
Proof.
  intros Hnum Hden. unfold PyFloat.div_half_even.
  pose proof (Z.div_mod num den ltac:(lia)) as Hdm.
  pose proof (Z.mod_pos_bound num den Hden) as Hr.
  pose proof (Z.div_pos num den Hnum Hden) as Hq.
  set (q := num / den) in *. set (r := num mod den) in *.
  destruct (Z.compare_spec (2 * r) den) as [Heq|Hlt|Hgt].
  - destruct (Z.even q) eqn:Heven.
    + split; [lia|]. split; [lia|done].
    + split; [lia|]. split; [lia|]. intros _.
      rewrite Z.even_add, Heven. done.
  - split; [lia|]. split; [lia|]. intros Htie. lia.
  - split; [lia|]. split; [lia|]. intros Htie. lia.
Qed.

(** Python's [round] gives the float nearest to the nearest decimal. *)
Lemma round_rounded (x : PyFloat.float) (ndigits : Z) :
  0 ≤ ndigits → rounded ndigits x (PyFloat.round x ndigits).
Proof.
  intros Hnd.
  assert (Hscale : 0 < 10 ^ ndigits) by (apply Z.pow_pos_nonneg; lia).
  destruct x as [s|s| |s m e]; simpl; try done.
  - exists 0. done.
  - destruct e as [|p|p].
    + exists (Zpos m * 10 ^ ndigits * 2 ^ 0). split; [lia|]. split; [|done].
      change (- 0) with 0. change (Z.max 0 0) with 0. change (2 ^ 0) with 1.
      split; [lia|]. lia.
    + exists (Zpos m * 10 ^ ndigits * 2 ^ Zpos p).
      assert (0 < 2 ^ Zpos p) by (apply Z.pow_pos_nonneg; lia).
      split; [nia|]. split; [|done].
      change (Z.max (Zpos p) 0) with (Zpos p).
      change (Z.max (- Zpos p) 0) with 0. change (2 ^ 0) with 1.
      split; [lia|]. lia.
    + assert (0 < 2 ^ Zpos p) by (apply Z.pow_pos_nonneg; lia).
      destruct (div_half_even_spec (Zpos m * 10 ^ ndigits) (2 ^ Zpos p))
        as (Hk & Hnear & Htie); [lia|done|].
      exists (PyFloat.div_half_even (Zpos m * 10 ^ ndigits) (2 ^ Zpos p)).
      split; [done|]. split; [|done].
      change (Z.max (Zneg p) 0) with 0.
      change (Z.max (- Zneg p) 0) with (Zpos p).
      change (2 ^ 0) with 1.
      replace (10 ^ ndigits * Zpos m * 1) with (Zpos m * 10 ^ ndigits) by lia.
      done.
Qed.

(** numpy's [rint] gives the nearest integer. *)
Lemma rint_is_rint (y : PyFloat.float) : is_rint y (rint y).
Proof.
  destruct y as [s|s| |s m e]; simpl; try done.
  destruct e as [|p|p].
  - exists (Zpos m). split; [lia|]. split; [|split; [done|lia]].
    change (- 0) with 0. change (Z.max 0 0) with 0. change (2 ^ 0) with 1.
    split; [lia|]. lia.
  - exists (Zpos m * 2 ^ Zpos p).
    assert (0 < 2 ^ Zpos p) by (apply Z.pow_pos_nonneg; lia).
    split; [nia|]. split; [|split; [done|lia]].
    change (Z.max (Zpos p) 0) with (Zpos p).
    change (Z.max (- Zpos p) 0) with 0. change (2 ^ 0) with 1.
    split; [lia|]. lia.
  - assert (0 < 2 ^ Zpos p) by (apply Z.pow_pos_nonneg; lia).
    destruct (div_half_even_spec (Zpos m) (2 ^ Zpos p))
      as (Hk & Hnear & Htie); [lia|done|].
    exists (PyFloat.div_half_even (Zpos m) (2 ^ Zpos p)).
    split; [done|]. split; [|split; [lia|]].
    + change (Z.max (Zneg p) 0) with 0.
      change (Z.max (- Zneg p) 0) with (Zpos p).
      change (2 ^ 0) with 1.
      replace (1 * Zpos m * 1) with (Zpos m) by lia. done.
    + intros _.
      destruct (PyFloat.div_half_even (Zpos m) (2 ^ Zpos p)) as [|k|k]; [done| |lia].
      by destruct s.
Qed.

Lemma np_round_np_rounded (x : PyFloat.float) (ndigits : Z) :
  np_rounded ndigits x (np_round x ndigits).
Proof. eexists. split; [apply rint_is_rint|done]. Qed.

(** C6. For non-negative [bikes] and [capacity], [calculate_utilization]
    is the integer 0 when [capacity = 0] and never raises
    ZeroDivisionError.  When [capacity > 0] it is the percentage
    [bikes/capacity*100] rounded to two decimal places by the [round] of
    its arguments.  On [int]s the result is the float nearest to [k/100]
    for the integer [k] nearest to 100 times the value of the percentage;
    on [numpy.int64]s it is the float quotient by 100 of the integer
    nearest to the float product of the percentage and 100.
    utilization(0,0) = 0, utilization(3,10) = 30.0 and
    utilization(10,10) = 100.0 with both; utilization(1,3) = 33.33 with
    both; utilization(3,20000) is 0.01 on [int]s and 0.02 on
    [numpy.int64]s. *)
Theorem calculate_utilization_correct (bikes capacity : Z) :
  0 ≤ bikes → 0 ≤ capacity →
  (capacity = 0 →
   calculate_utilization bikes capacity = Ok (PyInt 0)
   ∧ calculate_utilization (Int64 bikes) (Int64 capacity) = Ok (PyInt 0))
  ∧ (0 < capacity →
     (∀ q, PyFloat.int_true_div bikes capacity = Ok q →
        ∃ r, calculate_utilization bikes capacity = Ok (PyFloat r)
          ∧ rounded 2 (PyFloat.mul q (PyFloat.of_int 100)) r)
     ∧ (∀ e, PyFloat.int_true_div bikes capacity = Raise e →
          e = OverflowError ∧ calculate_utilization bikes capacity = Raise OverflowError)
     ∧ ∃ r, calculate_utilization (Int64 bikes) (Int64 capacity) = Ok (PyFloat r)
         ∧ np_rounded 2
             (PyFloat.mul
                (SFdiv PyFloat.prec PyFloat.emax
                   (PyFloat.of_int bikes) (PyFloat.of_int capacity))
                (PyFloat.of_int 100))
             r)
  ∧ calculate_utilization bikes capacity ≠ Raise ZeroDivisionError
  ∧ calculate_utilization (Int64 bikes) (Int64 capacity) ≠ Raise ZeroDivisionError
  ∧ (calculate_utilization 0 0 = Ok (PyInt 0)
     ∧ calculate_utilization 3 10 = Ok (PyFloat (PyFloat.of_int 30))
     ∧ calculate_utilization 10 10 = Ok (PyFloat (PyFloat.of_int 100))
     ∧ calculate_utilization 1 3 = Ok (PyFloat (of_decimal false 3333 2))
     ∧ calculate_utilization 3 20000 = Ok (PyFloat (of_decimal false 1 2)))
  ∧ (calculate_utilization (Int64 0) (Int64 0) = Ok (PyInt 0)
     ∧ calculate_utilization (Int64 3) (Int64 10) = Ok (PyFloat (PyFloat.of_int 30))
     ∧ calculate_utilization (Int64 10) (Int64 10) = Ok (PyFloat (PyFloat.of_int 100))
     ∧ calculate_utilization (Int64 1) (Int64 3) = Ok (PyFloat (of_decimal false 3333 2))
     ∧ calculate_utilization (Int64 3) (Int64 20000) = Ok (PyFloat (of_decimal false 2 2))).
Proof.
  intros Hb Hc. unfold calculate_utilization. cbn [eq_zero truediv round_quotient
    int_Integer int64_Integer int64_value].
  split; [|split; [|split; [|split; [|split]]]].
  - by intros ->.
  - intros Hpos. destruct (Z.eqb_spec capacity 0) as [->|Hne]; [lia|].
    split; [|split].
    + intros q ->. eexists. split; [reflexivity|]. by apply round_rounded.
    + intros e He.
      assert (e = OverflowError) as ->.
      { unfold PyFloat.int_true_div in He.
        destruct (Z.eqb_spec capacity 0); [done|].
        destruct (SFdiv _ _ _ _); by simplify_eq. }
      rewrite He. done.
    + eexists. split; [reflexivity|]. apply np_round_np_rounded.
  - destruct (Z.eqb_spec capacity 0) as [->|Hne]; [done|].
    pose proof (int_true_div_nonzero bikes capacity Hne) as Hdiv.
    destruct (PyFloat.int_true_div bikes capacity) as [q|e]; simpl; [done|].
    intros [= ->]. done.
  - by destruct (capacity =? 0).
  - split; [reflexivity|]. repeat (split; [vm_compute; reflexivity|]).
    vm_compute. reflexivity.
  - split; [reflexivity|]. repeat (split; [vm_compute; reflexivity|]).
    vm_compute. reflexivity.
Qed.

(** Up to a capacity of 40, every number of bikes within the capacity gives
    a float from 0.0 to 100.0. *)
Example calculate_utilization_small_capacities :
  forallb (λ capacity, forallb (λ bikes, is_percentage bikes capacity)
                         (seqZ 0 (capacity + 1)))
    (seqZ 1 40) = true.
Proof. vm_compute. reflexivity. Qed.

Lemma calculate_utilization_correct_witness :
  (∃ q r, PyFloat.int_true_div 1 3 = Ok q
     ∧ calculate_utilization 1 3 = Ok (PyFloat r)
     ∧ rounded 2 (PyFloat.mul q (PyFloat.of_int 100)) r)
  ∧ calculate_utilization 1 3 ≠ Raise ZeroDivisionError.
Proof.
  destruct (calculate_utilization_correct 1 3) as (_ & Hpos & Hzero & _); [lia|lia|].
  split; [|exact Hzero].
  destruct (Hpos ltac:(lia)) as (Hround & _).
  destruct (Hround _ eq_refl) as (r & Hr & Hrounded).
  eexists _, r. split; [reflexivity|]. split; [exact Hr|exact Hrounded].
Defined.

(** C7. For a non-negative number of bikes both colour functions give the
    class ok (green) above 3, low (orange, yellow) from 1 to 3 and empty
    (red) at 0; statusClass(4) = ok, statusClass(1) = low,
    statusClass(0) = empty. *)
Theorem status_class_thresholds (bikes : Z) :
  0 ≤ bikes →
  (3 < bikes →
   get_status_color bikes = "green" ∧ get_marker_color bikes = "green"
   ∧ statusClass bikes = Some class_ok ∧ markerClass bikes = Some class_ok)
  ∧ (0 < bikes ≤ 3 →
     get_status_color bikes = "orange" ∧ get_marker_color bikes = "yellow"
     ∧ statusClass bikes = Some class_low ∧ markerClass bikes = Some class_low)
  ∧ (bikes = 0 →
     get_status_color bikes = "red" ∧ get_marker_color bikes = "red"
     ∧ statusClass bikes = Some class_empty ∧ markerClass bikes = Some class_empty)
  ∧ statusClass 4 = Some class_ok
  ∧ statusClass 1 = Some class_low
  ∧ statusClass 0 = Some class_empty.
Proof.
  intros Hb.
  unfold statusClass, markerClass, get_status_color, get_marker_color.
  split; [|split; [|split; [|done]]].
  - intros H3. destruct (Z.ltb_spec 3 bikes); [done|lia].
  - intros [H0 H3].
    destruct (Z.ltb_spec 3 bikes); [lia|].
    destruct (Z.ltb_spec 0 bikes); [|lia].
    destruct (Z.leb_spec bikes 3); [done|lia].
  - intros ->. done.
Qed.

Lemma status_class_thresholds_witness :
  get_status_color 2 = "orange" ∧ get_marker_color 2 = "yellow".
Proof.
  destruct (status_class_thresholds 2) as (_ & H & _); [lia|].
  destruct H as (H1 & H2 & _); [lia|]. split; [exact H1|exact H2].
Defined.

(** ** Top-N selection *)

Section nlargest_facts.
Context {A : Type} (key : A → Z).

Local Abbreviation desc := (λ x y : A, key y ≤ key x).

Local Instance desc_transitive : Transitive desc.
Proof. intros x y z Hxy Hyz. lia. Qed.

Lemma insert_desc_Permutation x l : insert_desc key x l ≡ₚ x :: l.
Proof.
  induction l as [|y l IH]; simpl; [done|].
  destruct (key y <=? key x); [done|].
  rewrite IH. apply Permutation_swap.
Qed.

Lemma sort_values_desc_Permutation l : sort_values_desc key l ≡ₚ l.
Proof.
  induction l as [|x l IH]; simpl; [done|].
  rewrite insert_desc_Permutation. by rewrite IH.
Qed.

Lemma insert_desc_HdRel z x l :
  key x ≤ key z → HdRel desc z l → HdRel desc z (insert_desc key x l).
Proof.
  intros Hx Hl. destruct l as [|y l]; simpl; [by constructor|].
  destruct (key y <=? key x); constructor; [done|].
  by inversion Hl.
Qed.

Lemma insert_desc_Sorted x l :
  Sorted desc l → Sorted desc (insert_desc key x l).
Proof.
  induction 1 as [|y l Hl IH Hhd]; simpl; [by repeat constructor|].
  destruct (Z.leb_spec (key y) (key x)) as [Hle|Hgt].
  - constructor; [by constructor|by constructor].
  - constructor; [done|]. apply insert_desc_HdRel; [lia|done].
Qed.

Lemma sort_values_desc_Sorted l : StronglySorted desc (sort_values_desc key l).
Proof.
  apply Sorted_StronglySorted; [apply _|].
  induction l as [|x l IH]; simpl; [constructor|].
  by apply insert_desc_Sorted.
Qed.

(** The sort is stable: rows of one value keep the order of the frame. *)
Lemma insert_desc_filter k x l :
  filter (λ y, key y = k) (insert_desc key x l) = filter (λ y, key y = k) (x :: l).
Proof.
  induction l as [|y l IH]; simpl; [done|].
  destruct (Z.leb_spec (key y) (key x)) as [Hle|Hgt]; [done|].
  rewrite (filter_cons _ y (insert_desc key x l)), IH.
  rewrite !filter_cons.
  repeat case_decide; try done; lia.
Qed.

Lemma sort_values_desc_stable k l :
  filter (λ y, key y = k) (sort_values_desc key l) = filter (λ y, key y = k) l.
Proof.
  induction l as [|x l IH]; simpl; [done|].
  rewrite insert_desc_filter, !filter_cons, IH. done.
Qed.

Lemma prefix_of_filter (P : A → Prop) `{∀ x, Decision (P x)} (l1 l2 : list A) :
  l1 `prefix_of` l2 → filter P l1 `prefix_of` filter P l2.
Proof. intros [k ->]. rewrite filter_app. by eexists. Qed.

Lemma nlargest_top_n_of n df : top_n_of key n df (nlargest key n df).
Proof.
  unfold top_n_of, nlargest. split; [|split; [|split]].
  - rewrite length_take. by rewrite (Permutation_length (sort_values_desc_Permutation df)).
  - pose proof (sort_values_desc_Sorted df) as Hs.
    rewrite <-(take_drop n (sort_values_desc key df)) in Hs.
    by apply StronglySorted_app_1_l in Hs.
  - exists (drop n (sort_values_desc key df)). split.
    + by rewrite take_drop, sort_values_desc_Permutation.
    + intros x y Hx Hy.
      pose proof (sort_values_desc_Sorted df) as Hs.
      rewrite <-(take_drop n (sort_values_desc key df)) in Hs.
      apply (StronglySorted_app_1_elem_of _ _ _ x y Hs Hx Hy).
  - intros k. rewrite <-(sort_values_desc_stable k df).
    apply prefix_of_filter, prefix_take.
Qed.

End nlargest_facts.

(** Stations with as many bikes come in the order of the frame. *)
Example top_bikes_ties :
  Station.station_id <$> nlargest Station.bikes_available 5 Sample.ties
  = ["b"; "d"; "f"; "a"; "c"].
Proof. vm_compute. reflexivity. Qed.

(** C8. Top-N by bikes is the [n] stations with the most bikes in
    descending order, stations with as many bikes in the order of the
    snapshot; the same holds by docks; the two tables of the Analytics page
    are these selections for [n = 5]; and on seven stations with 0 to 6
    bikes the table lists 6, 5, 4, 3, 2. *)
Theorem top_n_stable_selection (n : nat) (df : list Station.t) :
  top_n_of Station.bikes_available n df (nlargest Station.bikes_available n df)
  ∧ top_n_of Station.docks_available n df (nlargest Station.docks_available n df)
  ∧ (λ r, r.1.2) <$> top_bikes df
    = Station.bikes_available <$> nlargest Station.bikes_available 5 df
  ∧ (λ r, r.1.2) <$> top_docks df
    = Station.docks_available <$> nlargest Station.docks_available 5 df
  ∧ (λ r, r.1.2) <$> top_bikes Sample.seven = [6; 5; 4; 3; 2]
  ∧ (λ r, r.1.2) <$> top_docks Sample.seven = [6; 5; 4; 3; 2].
Proof.
  split; [apply nlargest_top_n_of|].
  split; [apply nlargest_top_n_of|].
  split; [unfold top_bikes; by rewrite <-list_fmap_compose|].
  split; [unfold top_docks; by rewrite <-list_fmap_compose|].
  split; vm_compute; reflexivity.
Qed.

(** ** Feed client: filters and duplicates *)

Section drop_duplicates_facts.
Context {A K : Type} `{EqDecision K} (subset : A → K).

Lemma drop_duplicates_seen_fresh seen df r :
  r ∈ drop_duplicates_seen subset seen df → (subset r ∉ seen) ∧ r ∈ df.
Proof.
  revert seen. induction df as [|x df IH]; intros seen; simpl.
  - by intros ?%elem_of_nil.
  - case_decide as Hx.
    + intros [??]%IH. split; [done|by right].
    + intros [->|Hr]%elem_of_cons; [split; [done|by left]|].
      apply IH in Hr as [Hr ?]. split; [|by right].
      intros ?. apply Hr. by right.
Qed.

Lemma drop_duplicates_seen_NoDup seen df :
  NoDup (subset <$> drop_duplicates_seen subset seen df).
Proof.
  revert seen. induction df as [|x df IH]; intros seen; simpl; [constructor|].
  case_decide as Hx; [apply IH|].
  rewrite fmap_cons. constructor; [|apply IH].
  intros (r & Heq & Hr)%list_elem_of_fmap.
  apply drop_duplicates_seen_fresh in Hr as [Hr _].
  apply Hr. rewrite <-Heq. by left.
Qed.

Lemma drop_duplicates_seen_sublist seen df :
  drop_duplicates_seen subset seen df `sublist_of` df.
Proof.
  revert seen. induction df as [|x df IH]; intros seen; simpl; [done|].
  case_decide; [by apply sublist_cons|by apply sublist_skip].
Qed.

Lemma drop_duplicates_seen_complete seen df r :
  r ∈ df → subset r ∉ seen →
  ∃ r', r' ∈ drop_duplicates_seen subset seen df ∧ subset r' = subset r.
Proof.
  revert seen. induction df as [|x df IH]; intros seen; simpl.
  - by intros ?%elem_of_nil.
  - intros [->|Hr]%elem_of_cons Hseen.
    + case_decide; [done|]. exists x. split; [by left|done].
    + case_decide as Hx; [by apply IH|].
      destruct (decide (subset r = subset x)) as [Heq|Hne].
      * exists x. split; [by left|done].
      * destruct (IH (subset x :: seen) Hr) as (r' & Hr' & Heq').
        { intros [?|?]%elem_of_cons; done. }
        exists r'. split; [by right|done].
Qed.

Lemma drop_duplicates_seen_first seen df r :
  r ∈ drop_duplicates_seen subset seen df →
  ∃ l1 l2, df = l1 ++ r :: l2 ∧ ∀ x, x ∈ l1 → subset x ≠ subset r.
Proof.
  revert seen. induction df as [|x df IH]; intros seen; simpl.
  - by intros ?%elem_of_nil.
  - case_decide as Hx.
    + intros Hr. pose proof Hr as [Hfresh _]%drop_duplicates_seen_fresh.
      apply IH in Hr as (l1 & l2 & -> & Hl1).
      exists (x :: l1), l2. split; [done|].
      intros y [->|?]%elem_of_cons; [|by apply Hl1].
      intros Heq. apply Hfresh. by rewrite <-Heq.
    + intros [->|Hr]%elem_of_cons.
      * exists [], df. split; [done|]. by intros ? ?%elem_of_nil.
      * pose proof Hr as [Hfresh _]%drop_duplicates_seen_fresh.
        apply IH in Hr as (l1 & l2 & -> & Hl1).
        exists (x :: l1), l2. split; [done|].
        intros y [->|?]%elem_of_cons; [|by apply Hl1].
        intros Heq. apply Hfresh. rewrite <-Heq. by left.
Qed.

End drop_duplicates_facts.

Lemma map_result_Forall2 {A B : Type} (f : A → result B) l l' :
  map_result f l = Ok l' → Forall2 (λ x y, f x = Ok y) l l'.
Proof.
  revert l'. induction l as [|x l IH]; intros l'; simpl.
  - intros [= <-]. constructor.
  - destruct (f x) as [y|e] eqn:Hfx; simpl; [|done].
    destruct (map_result f l) as [ys|e]; simpl; [|done].
    intros [= <-]. constructor; [done|by apply IH].
Qed.

Lemma map_result_Ok {A B : Type} (f : A → result B) l :
  Forall (λ x, ∃ y, f x = Ok y) l → ∃ l', map_result f l = Ok l'.
Proof.
  induction 1 as [|x l [y Hy] _ [l' IH]]; simpl; [by eexists|].
  rewrite Hy, IH. simpl. by eexists.
Qed.

Lemma of_feed_Ok r row :
  StatusRow.of_feed r = Ok row →
  StatusRow.station_id row = StationStatus.station_id r
  ∧ StatusRow.last_reported row = utc (StationStatus.last_reported r)
  ∧ StatusRow.time row = StatusRow.last_reported row
  ∧ StatusRow.is_renting row = StationStatus.is_renting r
  ∧ StatusRow.is_returning row = StationStatus.is_returning r.
Proof.
  unfold StatusRow.of_feed, utcfromtimestamp.
  repeat case_match; simpl; try done; by intros [= <-].
Qed.

Lemma active_stations_elem_of feed r :
  r ∈ active_stations feed →
  r ∈ feed ∧ StationStatus.is_renting r = true ∧ StationStatus.is_returning r = true.
Proof.
  unfold active_stations, drop_duplicates.
  intros [_ Hr]%drop_duplicates_seen_fresh.
  apply list_elem_of_filter in Hr as [? Hr].
  apply list_elem_of_filter in Hr as [? Hr]. done.
Qed.

Lemma tz_localize_Ok df df' :
  tz_localize df = Ok df' →
  df' = df ∧ df ≠ [] ∧ Forall (λ row, in_ns_bounds (StatusRow.time row) = true) df.
Proof.
  unfold tz_localize. destruct df as [|row df]; [done|].
  destruct (forallb _ _) eqn:Hall; [|done]. intros [= <-].
  split; [done|]. split; [done|].
  apply Forall_forall. intros r Hr%list_elem_of_In.
  by apply (proj1 (forallb_forall _ _) Hall).
Qed.

Lemma tz_localize_Forall df :
  df ≠ [] → Forall (λ row, in_ns_bounds (StatusRow.time row) = true) df →
  tz_localize df = Ok df.
Proof.
  intros Hne Hall. unfold tz_localize. destruct df as [|row df]; [done|].
  replace (forallb _ _) with true; [done|]. symmetry.
  apply forallb_forall. intros r Hr%list_elem_of_In.
  rewrite Forall_forall in Hall. by apply Hall.
Qed.

Lemma query_station_status_Ok r df :
  query_station_status r = Ok df →
  ∃ feed, r = Document feed ∧ feed ≠ []
    ∧ Forall2 (λ x row, StatusRow.of_feed x = Ok row) (active_stations feed) df.
Proof.
  unfold query_station_status.
  destruct r as [| | | |feed]; simpl; try done.
  destruct feed as [|x feed]; [done|].
  destruct (map_result _ _) as [df0|e] eqn:Hmap; simpl; [|done].
  intros (-> & _)%tz_localize_Ok.
  apply map_result_Forall2 in Hmap. by exists (x :: feed).
Qed.


(** Every row of the frame comes from a feed record that was renting and
    returning. *)
Lemma query_station_status_origin r df row :
  query_station_status r = Ok df → row ∈ df →
  ∃ feed r0, r = Document feed ∧ r0 ∈ feed
    ∧ StationStatus.is_renting r0 = true ∧ StationStatus.is_returning r0 = true
    ∧ StatusRow.of_feed r0 = Ok row.
Proof.
  intros (feed & -> & _ & Hdf)%query_station_status_Ok Hrow.
  apply list_elem_of_lookup in Hrow as [i Hi].
  destruct (Forall2_lookup_r _ _ _ _ _ Hdf Hi) as (r0 & Hr0 & Hrow).
  apply list_elem_of_lookup_2, active_stations_elem_of in Hr0 as (? & ? & ?).
  by exists feed, r0.
Qed.

(** C1, as the code has it. [drop_duplicates(['station_id',
    'last_reported'])] keeps, of the renting and returning records, the
    first one of each pair (station_id, last_reported), in the order of the
    feed: no pair is kept twice, every pair of the feed is kept, and records
    of one station with different timestamps are all kept. *)
Theorem drop_duplicates_keeps_first_of_each_pair
    (feed : list StationStatus.t) (df : list StatusRow.t) :
  query_station_status (Document feed) = Ok df →
  let active :=
    filter (λ r, StationStatus.is_returning r = true)
      (filter (λ r, StationStatus.is_renting r = true) feed) in
  Forall2 (λ r row, StatusRow.of_feed r = Ok row) (active_stations feed) df
  ∧ active_stations feed `sublist_of` active
  ∧ NoDup (StatusRow.key <$> active_stations feed)
  ∧ NoDup ((λ row, (StatusRow.station_id row, StatusRow.last_reported row)) <$> df)
  ∧ (∀ r, r ∈ active_stations feed →
       ∃ l1 l2, active = l1 ++ r :: l2
         ∧ ∀ x, x ∈ l1 → StatusRow.key x ≠ StatusRow.key r)
  ∧ (∀ r, r ∈ active →
       ∃ row, row ∈ df
         ∧ StatusRow.station_id row = StationStatus.station_id r
         ∧ StatusRow.last_reported row = utc (StationStatus.last_reported r)).
Proof.
  intros Hq active.
  apply query_station_status_Ok in Hq as (feed' & [= <-] & _ & Hdf).
  assert (Hkeys : (λ row, (StatusRow.station_id row, StatusRow.last_reported row)) <$> df
                  = (λ r, (StationStatus.station_id r, utc (StationStatus.last_reported r)))
                      <$> active_stations feed).
  { clear -Hdf. induction Hdf as [|r row l l' Hr _ IH]; [done|].
    rewrite !fmap_cons, IH. apply of_feed_Ok in Hr as (-> & -> & _). done. }
  split; [done|].
  split; [apply drop_duplicates_seen_sublist|].
  split; [apply drop_duplicates_seen_NoDup|].
  split.
  { rewrite Hkeys.
    change (λ r, (StationStatus.station_id r, utc (StationStatus.last_reported r)))
      with ((λ k : string * Z, (k.1, utc k.2)) ∘ StatusRow.key).
    rewrite list_fmap_compose. apply NoDup_fmap_2.
    - intros [a1 b1] [a2 b2] [= -> ->]. done.
    - apply drop_duplicates_seen_NoDup. }
  split; [intros r Hr; by apply (drop_duplicates_seen_first StatusRow.key [])|].
  intros r Hr.
  destruct (drop_duplicates_seen_complete StatusRow.key [] active r Hr)
    as (r' & Hr' & Heq); [by intros ?%elem_of_nil|].
  apply list_elem_of_lookup in Hr' as [i Hi].
  destruct (Forall2_lookup_l _ _ _ _ _ Hdf Hi) as (row & Hrow & Hof).
  exists row. split; [by eapply list_elem_of_lookup_2|].
  apply of_feed_Ok in Hof as (-> & -> & _).
  injection Heq as -> ->. done.
Qed.

(** Two reports of one station, both renting and returning. *)
Lemma drop_duplicates_keeps_first_of_each_pair_witness :
  ∃ row, row ∈ [Sample.status_row "A" 1700000000; Sample.status_row "A" 1700000060]
    ∧ StatusRow.station_id row = "A"
    ∧ StatusRow.last_reported row = utc 1700000060.
Proof.
  refine (proj2 (proj2 (proj2 (proj2 (proj2
    (drop_duplicates_keeps_first_of_each_pair
       [Sample.status "A" true 1700000000; Sample.status "A" true 1700000060]
       [Sample.status_row "A" 1700000000; Sample.status_row "A" 1700000060]
       _)))))
    (Sample.status "A" true 1700000060) _).
  - vm_compute. reflexivity.
  - right. left.
Defined.

(** C1 as stated fails: two records of one station with different
    timestamps both survive the deduplication, and both reach the merged
    frame. *)
Lemma drop_duplicates_keeps_both_timestamps :
  query_station_status
    (Document [Sample.status "A" true 1700000000; Sample.status "A" true 1700000060])
  = Ok [Sample.status_row "A" 1700000000; Sample.status_row "A" 1700000060]
  ∧ ¬ NoDup (StatusRow.station_id <$>
               [Sample.status_row "A" 1700000000; Sample.status_row "A" 1700000060])
  ∧ StatusRow.station_id (Sample.status_row "A" 1700000000)
    = StatusRow.station_id (Sample.status_row "A" 1700000060)
  ∧ StatusRow.last_reported (Sample.status_row "A" 1700000000)
    ≠ StatusRow.last_reported (Sample.status_row "A" 1700000060)
  ∧ merge_left [Sample.status_row "A" 1700000000; Sample.status_row "A" 1700000060]
      [Sample.info "A" "Tokyo Station" 10]
    = Ok [Row.matched (Sample.status_row "A" 1700000000) (Sample.info "A" "Tokyo Station" 10);
          Row.matched (Sample.status_row "A" 1700000060) (Sample.info "A" "Tokyo Station" 10)].
Proof.
  split; [vm_compute; reflexivity|].
  split; [intros [Hnotin _]%NoDup_cons; apply Hnotin; left|].
  split; [reflexivity|].
  split; [discriminate|].
  vm_compute. reflexivity.
Qed.

(** ** Reconciler *)

Lemma filter_none {A : Type} (P : A → Prop) `{∀ x, Decision (P x)} (l : list A) :
  (∀ x, x ∈ l → ¬ P x) → filter P l = [].
Proof.
  induction l as [|x l IH]; intros Hl; [done|].
  rewrite filter_cons_False; [|apply Hl; by left].
  apply IH. intros y Hy. apply Hl. by right.
Qed.

Lemma filter_station_id_unique (right : list StationInfo.t) (id : string) :
  NoDup (StationInfo.station_id <$> right) →
  filter (λ i, StationInfo.station_id i = id) right = []
  ∨ ∃ i, filter (λ i, StationInfo.station_id i = id) right = [i].
Proof.
  induction right as [|i right IH]; [by left|].
  rewrite fmap_cons. intros [Hi Hnd]%NoDup_cons.
  rewrite filter_cons. case_decide as Hid.
  - right. exists i. f_equal.
    apply filter_none. intros j Hj Hjid.
    apply Hi. rewrite Hid, <-Hjid. by apply list_elem_of_fmap_2.
  - by apply IH.
Qed.

Lemma merge_left_unique_Ok left right :
  right ≠ [] → NoDup (StationInfo.station_id <$> right) →
  merge_left left right = Ok (merge_row right <$> left).
Proof.
  intros Hne Hnd. unfold merge_left.
  destruct right as [|i0 right0] eqn:Hright; [done|]. rewrite <-Hright in *.
  f_equal. clear Hne Hright.
  induction left as [|l left IH]; [done|].
  rewrite fmap_cons, <-IH. change ((l :: left) ≫= ?f) with (f l ++ (left ≫= f)).
  unfold merge_row.
  destruct (filter_station_id_unique right (StatusRow.station_id l) Hnd)
    as [->|[i ->]]; done.
Qed.

Lemma merge_row_status right l : Row.status (merge_row right l) = l.
Proof. unfold merge_row. by case_match. Qed.

Lemma merge_row_unmatched right l :
  (∀ i, i ∈ right → StationInfo.station_id i ≠ StatusRow.station_id l) →
  merge_row right l = Row.unmatched l.
Proof.
  intros Hno. unfold merge_row.
  destruct (filter _ right) as [|i ?] eqn:Hf; [done|].
  assert (Hi : i ∈ filter (λ i, StationInfo.station_id i = StatusRow.station_id l) right)
    by (rewrite Hf; left).
  apply list_elem_of_filter in Hi as [Hid Hi]. by destruct (Hno i Hi).
Qed.

Lemma merge_row_matched right l i :
  NoDup (StationInfo.station_id <$> right) →
  i ∈ right → StationInfo.station_id i = StatusRow.station_id l →
  merge_row right l = Row.matched l i.
Proof.
  intros Hnd Hi Hid. unfold merge_row.
  assert (Hin : i ∈ filter (λ i, StationInfo.station_id i = StatusRow.station_id l) right)
    by (by apply list_elem_of_filter).
  destruct (filter_station_id_unique right (StatusRow.station_id l) Hnd)
    as [Hf|[j Hf]]; rewrite Hf in Hin |- *.
  - by apply elem_of_nil in Hin.
  - by apply list_elem_of_singleton in Hin as ->.
Qed.

(** C3, as the code has it. When the station ids of the information feed
    are distinct, the merge gives exactly one row per status row, in the
    order of the status rows; a status row without information row is kept,
    with null name, lat, lon, capacity and region_id; a status row with one
    gets its columns.  [join_latlon] does the same. *)
Theorem merge_left_one_row_per_status
    (left : list StatusRow.t) (right : list StationInfo.t) :
  right ≠ [] → NoDup (StationInfo.station_id <$> right) →
  ∃ out,
    merge_left left right = Ok out
    ∧ Row.status <$> out = left
    ∧ (∀ row, row ∈ out →
         (∀ i, i ∈ right → StationInfo.station_id i ≠ Row.station_id row) →
         row = Row.unmatched (Row.status row)
         ∧ Row.name row = None ∧ Row.lat row = None ∧ Row.lon row = None
         ∧ Row.capacity row = None ∧ Row.region_id row = None)
    ∧ (∀ row i, row ∈ out → i ∈ right →
         StationInfo.station_id i = Row.station_id row →
         row = Row.matched (Row.status row) i)
    ∧ ∃ out',
        join_latlon left right = Ok out'
        ∧ Row.status <$> out' = left
        ∧ Row.name <$> out' = Row.name <$> out
        ∧ Row.lat <$> out' = Row.lat <$> out
        ∧ Row.lon <$> out' = Row.lon <$> out
        ∧ Row.capacity <$> out' = Row.capacity <$> out.
Proof.
  intros Hne Hnd. exists (merge_row right <$> left).
  split; [by apply merge_left_unique_Ok|].
  split.
  { rewrite <-list_fmap_compose. rewrite <-(list_fmap_id left) at 2.
    apply list_fmap_ext. intros ? l _. apply merge_row_status. }
  split.
  { intros row (l & -> & Hl)%list_elem_of_fmap Hno.
    unfold Row.station_id in Hno. rewrite merge_row_status in Hno |- *.
    rewrite (merge_row_unmatched right l Hno). done. }
  split.
  { intros row i (l & -> & Hl)%list_elem_of_fmap Hi Hid.
    unfold Row.station_id in Hid. rewrite merge_row_status in Hid |- *.
    by apply merge_row_matched. }
  set (proj := λ i, {| StationInfo.station_id := StationInfo.station_id i;
                       StationInfo.name := StationInfo.name i;
                       StationInfo.lat := StationInfo.lat i;
                       StationInfo.lon := StationInfo.lon i;
                       StationInfo.capacity := StationInfo.capacity i;
                       StationInfo.region_id := None |}).
  assert (Hrow : ∀ l,
    Row.status (merge_row (proj <$> right) l) = l
    ∧ Row.name (merge_row (proj <$> right) l) = Row.name (merge_row right l)
    ∧ Row.lat (merge_row (proj <$> right) l) = Row.lat (merge_row right l)
    ∧ Row.lon (merge_row (proj <$> right) l) = Row.lon (merge_row right l)
    ∧ Row.capacity (merge_row (proj <$> right) l) = Row.capacity (merge_row right l)).
  { intros l. unfold merge_row. clear.
    induction right as [|i right IH]; [done|].
    rewrite fmap_cons, !filter_cons. simpl.
    case_decide; [done|apply IH]. }
  exists (merge_row (proj <$> right) <$> left).
  split.
  { unfold join_latlon. fold proj. apply merge_left_unique_Ok.
    - by destruct right.
    - rewrite <-list_fmap_compose. exact Hnd. }
  rewrite <-!list_fmap_compose.
  split; [|split; [|split; [|split]]].
  - rewrite <-(list_fmap_id left) at 2. apply list_fmap_ext. intros ? l _. apply Hrow.
  - apply list_fmap_ext. intros ? l _. apply Hrow.
  - apply list_fmap_ext. intros ? l _. apply Hrow.
  - apply list_fmap_ext. intros ? l _. apply Hrow.
  - apply list_fmap_ext. intros ? l _. apply Hrow.
Qed.

(** The example of the specification: status rows A, B, C and information
    records B, C give A, B, C in this order, A with nulls. *)
Example merge_left_ABC :
  merge_left
    [Sample.status_row "A" 1700000000; Sample.status_row "B" 1700000000;
     Sample.status_row "C" 1700000000]
    [Sample.info "B" "Ginza" 10; Sample.info "C" "Ueno" 12]
  = Ok [Row.unmatched (Sample.status_row "A" 1700000000);
        Row.matched (Sample.status_row "B" 1700000000) (Sample.info "B" "Ginza" 10);
        Row.matched (Sample.status_row "C" 1700000000) (Sample.info "C" "Ueno" 12)].
Proof. vm_compute. reflexivity. Qed.

Lemma merge_left_one_row_per_status_witness :
  ∃ out,
    merge_left
      [Sample.status_row "A" 1700000000; Sample.status_row "B" 1700000000;
       Sample.status_row "C" 1700000000]
      [Sample.info "B" "Ginza" 10; Sample.info "C" "Ueno" 12] = Ok out
    ∧ Row.status <$> out
      = [Sample.status_row "A" 1700000000; Sample.status_row "B" 1700000000;
         Sample.status_row "C" 1700000000].
Proof.
  destruct (merge_left_one_row_per_status
    [Sample.status_row "A" 1700000000; Sample.status_row "B" 1700000000;
     Sample.status_row "C" 1700000000]
    [Sample.info "B" "Ginza" 10; Sample.info "C" "Ueno" 12])
    as (out & Hout & Hstatus & _).
  - discriminate.
  - apply (bool_decide_unpack _). vm_compute. exact I.
  - exists out. split; [exact Hout|exact Hstatus].
Defined.

(** C3 as stated fails on two inputs: an information feed that lists a
    station id twice gives two rows for one status row, and an empty
    information feed gives a frame without the column [station_id], on
    which the merge raises. *)
Lemma merge_left_not_one_row_per_status :
  merge_left [Sample.status_row "A" 1700000000]
    [Sample.info "A" "Tokyo Station" 10; Sample.info "A" "Tokyo Station South" 12]
  = Ok [Row.matched (Sample.status_row "A" 1700000000) (Sample.info "A" "Tokyo Station" 10);
        Row.matched (Sample.status_row "A" 1700000000)
          (Sample.info "A" "Tokyo Station South" 12)]
  ∧ (¬ ∃ out,
        merge_left [Sample.status_row "A" 1700000000]
          [Sample.info "A" "Tokyo Station" 10; Sample.info "A" "Tokyo Station South" 12]
        = Ok out
        ∧ length out = length [Sample.status_row "A" 1700000000])
  ∧ merge_left [Sample.status_row "A" 1700000000] [] = Raise (KeyError "station_id").
Proof.
  split; [vm_compute; reflexivity|].
  split; [|reflexivity].
  intros (out & Hout & Hlen). vm_compute in Hout. injection Hout as <-. discriminate.
Qed.

(** ** The script *)

Section Script_facts.
Context {G : Type} `{RandomGen G}.

Lemma generate_stations_run rows lu sts cd g rq :
  ∃ res new g',
    generate_stations rows
      {| session_state := Some {| last_update := lu; stations := sts |};
         cache_data := cd; random := g; requests := rq |}
    = (res, {| session_state := Some {| last_update := lu; stations := sts ++ new |};
               cache_data := cd; random := g'; requests := rq |})
    ∧ Forall2 generated (take (length new) rows) new
    ∧ (res = Ok () → length new = length rows)
    ∧ (Forall valid_capacity rows → res = Ok ())
    ∧ (res ≠ Ok () →
       res = Raise ValueError ∧ ∃ row, rows !! length new = Some row ∧ ¬ valid_capacity row).
Proof.
  revert sts g. induction rows as [|row rows IH]; intros sts g.
  { exists (Ok ()), [], g. rewrite app_nil_r. simpl.
    split; [done|]. split; [constructor|]. done. }
  cbn [generate_stations].
  unfold generate_station, get_random_availability.
  destruct (Row.capacity row) as [c|] eqn:Hc.
  2:{ exists (Raise ValueError), [], g. rewrite app_nil_r. simpl.
      split; [done|]. split; [constructor|]. split; [done|].
      split; [intros [[c [Hc' _]] _]%Forall_cons; congruence|].
      intros _. split; [done|]. exists row. split; [done|].
      intros [c [Hc' _]]. congruence. }
  unfold randint, append_station, get_session, put_session, mbind, M_bind.
  cbn [session_state cache_data random requests last_update stations].
  destruct (Z.ltb_spec 0 (c - 0 + 1)) as [Hpos|Hneg].
  2:{ exists (Raise ValueError), [], g. rewrite app_nil_r. simpl.
      split; [done|]. split; [constructor|]. split; [done|].
      split; [intros [[c' [Hc' ?]] _]%Forall_cons; simplify_eq; lia|].
      intros _. split; [done|]. exists row. split; [done|].
      intros [c' [Hc' ?]]. simplify_eq. lia. }
  pose proof (randbelow_range (c - 0 + 1) g Hpos) as Hr.
  destruct (randbelow (c - 0 + 1) g) as [r g1]. simpl in Hr.
  cbn [session_state cache_data random requests last_update stations].
  set (s := {| Station.row := Row.set_flags row;
               Station.bikes_available := 0 + r;
               Station.docks_available := c - (0 + r) |}).
  destruct (IH (sts ++ [s]) g1) as (res & new & g' & Hrun & Hgen & Hlen & Hok & Hbad).
  exists res, (s :: new), g'. rewrite Hrun, <-(assoc_L (++)). simpl.
  split; [done|].
  split.
  { constructor; [|done]. split; [done|]. exists c. simpl. split; [done|]. lia. }
  split; [intros ?; f_equal; auto|].
  split; [intros [_ ?]%Forall_cons; auto|].
  done.
Qed.

Lemma regenerate_run now rows ss cd g rq :
  ∃ res new g',
    regenerate now rows
      {| session_state := ss; cache_data := cd; random := g; requests := rq |}
    = (res, {| session_state := Some {| last_update := now; stations := new |};
               cache_data := cd; random := g'; requests := rq |})
    ∧ Forall2 generated (take (length new) rows) new
    ∧ (res = Ok () → length new = length rows)
    ∧ (Forall valid_capacity rows → res = Ok ())
    ∧ (res ≠ Ok () →
       res = Raise ValueError ∧ ∃ row, rows !! length new = Some row ∧ ¬ valid_capacity row).
Proof.
  unfold regenerate, put_session, mbind, M_bind.
  cbn [session_state cache_data random requests].
  apply (generate_stations_run rows now [] cd g rq).
Qed.

(** A run whose feeds do not load raises at once; it touches neither the
    session state nor the random generator. *)
Lemma script_run_failed net now p b (w : @world G) e :
  stations_base net w = Raise e →
  script net now p b w
  = (Raise e,
     {| session_state := session_state w;
        cache_data := match status_frame net w with
                      | Ok df => Some df
                      | Raise _ => cache_data w
                      end;
        random := random w;
        requests := requests w ++
          match status_frame net w with
          | Ok _ => run_requests net w
          | Raise _ => [GetStatus (station_status_url net)]
          end |}).
Proof.
  destruct w as [ss cd g rq].
  unfold stations_base, status_frame, run_requests, script,
    cached_query_station_status, fetch_station_latlon, get_cache, urlopen,
    put_cache, lift, get_station_latlon.
  unfold mbind at 1 2 3 4, result_bind.
  unfold mbind, M_bind, mret, M_ret.
  cbn [session_state cache_data random requests].
  destruct cd as [df|].
  - destruct (load_stations (station_info_url net)) as [info|e']; [|by intros [= ->]].
    destruct (merge_left df info) as [rows|e']; [done|].
    intros [= ->]. by rewrite app_nil_l.
  - destruct (query_station_status (station_status_url net)) as [df|e'];
      [|by intros [= ->]].
    cbn [session_state cache_data random requests].
    destruct (load_stations (station_info_url net)) as [info|e'];
      [|intros [= ->]; by rewrite <-(assoc_L (++))].
    destruct (merge_left df info) as [rows|e']; [done|].
    intros [= ->]. by rewrite <-(assoc_L (++)).
Qed.

(** A run whose feeds load: it reads the stored snapshot, or runs the
    generator loop when nothing is stored or the refresh button was
    pressed. *)
Lemma script_run_loaded net now p b (w : @world G) df rows :
  status_frame net w = Ok df → stations_base net w = Ok rows →
  ∃ res ss' g',
    script net now p b w
    = (res, {| session_state := ss'; cache_data := Some df; random := g';
               requests := requests w ++ run_requests net w |})
    ∧ match session_state w, refreshing p b with
      | Some snap, false => res = Ok (stations snap) ∧ ss' = Some snap ∧ g' = random w
      | _, _ => regenerated now rows res ss'
      end.
Proof.
  destruct w as [ss cd g rq].
  unfold stations_base, run_requests. intros Hdf. rewrite Hdf.
  unfold status_frame in Hdf. cbn [session_state cache_data random requests] in *.
  unfold script, cached_query_station_status, fetch_station_latlon, get_cache,
    urlopen, put_cache, lift, get_station_latlon, get_session.
  unfold mbind at 1 2, result_bind.
  unfold mbind, M_bind, mret, M_ret.
  cbn [session_state cache_data random requests].
  destruct (load_stations (station_info_url net)) as [info|e'] eqn:Hinfo; [|done].
  intros Hrows.
  assert (Hregen : ∀ ss0 g0 rq0,
    ∃ res new g',
      regenerate now rows
        {| session_state := ss0; cache_data := Some df; random := g0; requests := rq0 |}
      = (res, {| session_state := Some {| last_update := now; stations := new |};
                 cache_data := Some df; random := g'; requests := rq0 |})
      ∧ (res = Ok () → regenerated now rows (Ok new)
                          (Some {| last_update := now; stations := new |}))
      ∧ (res ≠ Ok () → res = Raise ValueError
                        ∧ regenerated now rows (Raise ValueError)
                            (Some {| last_update := now; stations := new |}))).
  { intros ss0 g0 rq0.
    destruct (regenerate_run now rows ss0 (Some df) g0 rq0)
      as (res & new & g' & Hrun & Hgen & Hlen & Hok & Hbad).
    exists res, new, g'. split; [done|]. split.
    - intros ->. exists new. split; [done|]. split; [done|]. split; [done|].
      left. auto.
    - intros Hres. destruct (Hbad Hres) as [-> Hrow]. split; [done|].
      exists new. split; [done|]. split; [done|].
      split; [intros ?%Hok; done|]. by right. }
  assert (∃ rq1, rq1 = rq ++ match cd with
                             | Some _ => []
                             | None => [GetStatus (station_status_url net)]
                             end ++ [GetInfo (station_info_url net)]
          ∧ ∃ res ss' g',
    (let (r, w') :=
       match ss with
       | None => regenerate now rows
       | Some _ => λ w, (Ok (), w)
       end {| session_state := ss; cache_data := Some df; random := g; requests := rq1 |} in
     match r with
     | Ok _ =>
         let (r0, w'0) :=
           match p with
           | Settings => if b then regenerate now rows else λ w, (Ok (), w)
           | _ => λ w, (Ok (), w)
           end w' in
         match r0 with
         | Ok _ =>
             match session_state w'0 with
             | Some snap => λ w, (Ok (stations snap), w)
             | None => raise (KeyError "stations")
             end w'0
         | Raise e => (Raise e, w'0)
         end
     | Raise e => (Raise e, w')
     end)
    = (res, {| session_state := ss'; cache_data := Some df; random := g'; requests := rq1 |})
    ∧ match ss, refreshing p b with
      | Some snap, false => res = Ok (stations snap) ∧ ss' = Some snap ∧ g' = g
      | _, _ => regenerated now rows res ss'
      end) as (rq1 & -> & res & ss' & g' & Hrun & Hpost).
  { eexists. split; [done|].
    destruct ss as [snap|].
    - destruct (refreshing p b) eqn:Hp.
      + destruct p; try done. simpl in Hp. subst b.
        edestruct (Hregen (Some snap) g) as (res & new & g' & -> & Hok & Hbad).
        destruct res as [[]|e0].
        * eexists _, _, _. split; [done|]. auto.
        * destruct Hbad as [[= ->] ?]; [done|]. eexists _, _, _. split; [done|]. done.
      + exists (Ok (stations snap)), (Some snap), g.
        split; [|done]. destruct p; try done. simpl in Hp. by subst b.
    - edestruct (Hregen None g) as (res & new & g' & -> & Hok & Hbad).
      destruct res as [[]|e0].
      2:{ destruct Hbad as [[= ->] ?]; [done|]. eexists _, _, _. split; [done|]. done. }
      destruct (refreshing p b) eqn:Hp.
      + destruct p; try done. simpl in Hp. subst b.
        edestruct (Hregen (Some {| last_update := now; stations := new |}) g')
          as (res2 & new2 & g2 & -> & Hok2 & Hbad2).
        destruct res2 as [[]|e0].
        * eexists _, _, _. split; [done|]. auto.
        * destruct Hbad2 as [[= ->] ?]; [done|]. eexists _, _, _. split; [done|]. done.
      + exists (Ok new), (Some {| last_update := now; stations := new |}), g'.
        split; [|auto]. destruct p; try done. simpl in Hp. by subst b. }
  exists res, ss', g'. split; [|done].
  destruct cd as [df0|]; simplify_eq.
  - cbn [session_state cache_data random requests].
    rewrite Hrows. exact Hrun.
  - rewrite Hdf. cbn [session_state cache_data random requests].
    rewrite Hrows. rewrite <-(assoc_L (++)). exact Hrun.
Qed.

Lemma merge_left_status left right out row :
  merge_left left right = Ok out → row ∈ out → Row.status row ∈ left.
Proof.
  unfold merge_left. destruct right as [|i0 right0] eqn:Hr; [done|].
  rewrite <-Hr. clear Hr. intros [= <-].
  intros (l & Hrow & Hl)%list_elem_of_bind.
  destruct (filter _ right) as [|i matches].
  - by apply list_elem_of_singleton in Hrow as ->.
  - apply (list_elem_of_fmap (Row.matched l) (i :: matches)) in Hrow
      as (j & -> & _). done.
Qed.

Lemma stations_base_Ok net (w : @world G) rows :
  stations_base net w = Ok rows →
  ∃ df info,
    status_frame net w = Ok df
    ∧ station_info_url net = Document info
    ∧ merge_left df info = Ok rows.
Proof.
  unfold stations_base, get_station_latlon.
  destruct (status_frame net w) as [df|]; [|done].
  destruct (station_info_url net) as [| | | |info]; try done.
  intros Hrows. by exists df, info.
Qed.

Lemma regenerated_elem_of now rows res ss snap s :
  regenerated now rows res ss → ss = Some snap → s ∈ stations snap →
  ∃ row, row ∈ rows ∧ generated row s.
Proof.
  intros (new & -> & Hgen & _) [= <-] Hs. simpl in Hs.
  apply list_elem_of_lookup in Hs as [i Hi].
  destruct (Forall2_lookup_r _ _ _ _ _ Hgen Hi) as (row & Hrow & Hg).
  exists row. split; [|done].
  apply lookup_take_Some in Hrow as [Hrow _]. by eapply list_elem_of_lookup_2.
Qed.

Lemma fetched_frame_mono (w w' : @world G) df :
  requests w `prefix_of` requests w' → fetched_frame w df → fetched_frame w' df.
Proof.
  intros [k Hk] (r & Hr & Hq). exists r. split; [|done].
  rewrite Hk. apply elem_of_app. by left.
Qed.

Lemma status_frame_fetched net (w w' : @world G) df :
  (∀ df, cache_data w = Some df → fetched_frame w df) →
  status_frame net w = Ok df →
  requests w' = requests w ++ run_requests net w →
  fetched_frame w' df.
Proof.
  intros Hcache Hdf Hrq. unfold status_frame, run_requests in *.
  destruct (cache_data w) as [df0|] eqn:Hc.
  - injection Hdf as <-. apply (fetched_frame_mono w); [|by apply Hcache].
    rewrite Hrq. by eexists.
  - exists (station_status_url net). split; [|done].
    rewrite Hrq. apply elem_of_app. right. left.
Qed.

Lemma script_provenance net now p b (w : @world G) :
  provenance w → provenance (script net now p b w).2.
Proof.
  intros [Hcache Hsession].
  destruct (stations_base net w) as [rows|e] eqn:Hbase.
  - destruct (stations_base_Ok _ _ _ Hbase) as (df & info & Hdf & Hinfo & Hrows).
    destruct (script_run_loaded net now p b w df rows Hdf Hbase)
      as (res & ss' & g' & -> & Hpost).
    set (w' := {| session_state := ss'; cache_data := Some df; random := g';
                  requests := requests w ++ run_requests net w |}).
    assert (Hfetched : fetched_frame w' df)
      by by apply (status_frame_fetched net w).
    assert (Hmono : ∀ df0, fetched_frame w df0 → fetched_frame w' df0).
    { intros df0. apply fetched_frame_mono. by eexists. }
    split; cbn [snd session_state cache_data].
    + by intros ? [= <-].
    + intros snap s Hss Hs.
      assert (Hregen : regenerated now rows res ss' →
                ∃ row df0, generated row s ∧ Row.status row ∈ df0 ∧ fetched_frame w' df0).
      { intros Hreg.
        destruct (regenerated_elem_of _ _ _ _ _ _ Hreg Hss Hs) as (row & Hrow & Hg).
        exists row, df. split; [done|]. split; [|done].
        by eapply merge_left_status. }
      destruct (session_state w) as [snap0|] eqn:Hw; [|by apply Hregen].
      destruct (refreshing p b); [by apply Hregen|].
      destruct Hpost as (_ & -> & _). injection Hss as <-.
      destruct (Hsession snap0 s eq_refl Hs) as (row & df0 & ? & ? & ?).
      exists row, df0. auto.
  - rewrite (script_run_failed net now p b w e Hbase).
    set (w' := {| session_state := _; cache_data := _; random := _; requests := _ |}).
    assert (Hmono : ∀ df0, fetched_frame w df0 → fetched_frame w' df0).
    { intros df0. apply fetched_frame_mono. by eexists. }
    split; cbn [snd session_state cache_data].
    + intros df0 Hdf0. unfold status_frame in *.
      destruct (cache_data w) as [df1|] eqn:Hc.
      * injection Hdf0 as <-. by apply Hmono, Hcache.
      * destruct (query_station_status (station_status_url net)) as [df1|] eqn:Hq;
          [|done].
        injection Hdf0 as <-. exists (station_status_url net). split; [|done].
        cbn [requests w']. unfold run_requests. rewrite Hc.
        apply elem_of_app. right. left.
    + intros snap s Hss Hs.
      destruct (Hsession snap s Hss Hs) as (row & df0 & ? & ? & ?).
      exists row, df0. auto.
Qed.

Lemma reachable_provenance (w : @world G) : reachable w → provenance w.
Proof.
  induction 1 as [g|w net now p b _ IH|w _ [IHc IHs]|w _ [IHc IHs]].
  - split; [done|]. intros snap s [=].
  - by apply script_provenance.
  - split; [exact IHc|]. intros snap s [=].
  - split; [done|]. exact IHs.
Qed.

(** C2. The generator gives a row of non-negative capacity a number of
    bikes between 0 and the capacity and the docks that remain; and in
    every world the application reaches, after the first read and after
    every refresh, every stored station has a capacity [c] with
    [0 <= bikes_available <= c] and
    [bikes_available + docks_available = c]. *)
Theorem generator_within_capacity :
  (∀ row c (w : @world G) snap,
     Row.capacity row = Some c → 0 ≤ c → session_state w = Some snap →
     ∃ s,
       (generate_station row w).1 = Ok ()
       ∧ session_state (generate_station row w).2
         = Some {| last_update := last_update snap; stations := stations snap ++ [s] |}
       ∧ Station.row s = Row.set_flags row
       ∧ 0 ≤ Station.bikes_available s ≤ c
       ∧ Station.bikes_available s + Station.docks_available s = c)
  ∧ ∀ w : @world G, reachable w →
      ∀ snap s, session_state w = Some snap → s ∈ stations snap →
      ∃ c, Station.capacity s = Some c
        ∧ 0 ≤ Station.bikes_available s ≤ c
        ∧ Station.bikes_available s + Station.docks_available s = c.
Proof.
  split.
  - intros row c [ss cd g rq] [lu sts] Hc Hpos Hss. simpl in Hss. subst ss.
    destruct (generate_stations_run [row] lu sts cd g rq)
      as (res & new & g' & Hrun & Hgen & Hlen & Hok & _).
    rewrite Hok in Hrun, Hlen by (constructor; [by exists c|constructor]).
    specialize (Hlen eq_refl). destruct new as [|s [|??]]; try done.
    apply Forall2_cons_1 in Hgen as [(Hrow & c' & Hc' & Hb & Hd) _].
    simplify_eq. exists s.
    cbn [generate_stations] in Hrun. unfold mbind at 1, M_bind in Hrun.
    destruct (generate_station row _) as [[[]|e] w']; [|done].
    injection Hrun as ->. cbn [fst snd session_state last_update stations].
    repeat split; try done; lia.
  - intros w Hw snap s Hss Hs.
    destruct (reachable_provenance w Hw) as [_ Hprov].
    destruct (Hprov snap s Hss Hs) as (row & _ & (Hrow & c & Hc & Hb & Hd) & _).
    exists c. unfold Station.capacity. rewrite Hrow. cbn. split; [done|]. lia.
Qed.

(** C10. [query_station_status] drops every record that is not renting or
    not returning, and does so before it removes duplicates, so a dropped
    record hides no other; every station of every stored snapshot comes
    from a record of a fetched status feed that was renting and returning,
    and its three flags read true. *)
Theorem snapshot_holds_active_stations_only :
  (∀ feed r, r ∈ active_stations feed →
     r ∈ feed ∧ StationStatus.is_renting r = true ∧ StationStatus.is_returning r = true)
  ∧ (∀ feed r, r ∈ feed →
       StationStatus.is_renting r = true → StationStatus.is_returning r = true →
       ∃ r', r' ∈ active_stations feed ∧ StatusRow.key r' = StatusRow.key r)
  ∧ (∀ r df row, query_station_status r = Ok df → row ∈ df →
       StatusRow.is_renting row = true ∧ StatusRow.is_returning row = true)
  ∧ ∀ w : @world G, reachable w →
      ∀ snap s, session_state w = Some snap → s ∈ stations snap →
      Station.is_renting s = true ∧ Station.is_returning s = true
      ∧ Station.is_installed s = true
      ∧ ∃ feed r,
          GetStatus (Document feed) ∈ requests w ∧ r ∈ feed
          ∧ StationStatus.is_renting r = true
          ∧ StationStatus.is_returning r = true
          ∧ StationStatus.station_id r = Station.station_id s
          ∧ utc (StationStatus.last_reported r) = Station.last_reported s.
Proof.
  split; [apply active_stations_elem_of|].
  split.
  { intros feed r Hr Hrent Hret.
    apply (drop_duplicates_seen_complete StatusRow.key []); [|by intros ?%elem_of_nil].
    by do 2 (apply list_elem_of_filter; split; [done|]). }
  split.
  { intros r df row Hq Hrow.
    destruct (query_station_status_origin r df row Hq Hrow)
      as (feed & r0 & _ & _ & Hrent & Hret & Hof).
    apply of_feed_Ok in Hof as (_ & _ & _ & -> & ->). done. }
  intros w Hw snap s Hss Hs.
  destruct (reachable_provenance w Hw) as [_ Hprov].
  destruct (Hprov snap s Hss Hs) as (row & df & (Hrow & _) & Hin & r & Hreq & Hq).
  destruct (query_station_status_origin r df _ Hq Hin)
    as (feed & r0 & -> & Hr0 & Hrent & Hret & Hof).
  apply of_feed_Ok in Hof as (Hid & Hrep & _).
  unfold Station.is_renting, Station.is_returning, Station.is_installed,
    Station.station_id, Station.last_reported, Row.station_id.
  rewrite Hrow. cbn. repeat (split; [done|]).
  exists feed, r0. by rewrite Hid, Hrep.
Qed.

(** C4, as the code has it. In a session that has a snapshot, a run that
    is not a refresh leaves the snapshot, its timestamp and the random
    generator as they are; it returns the stored stations when the feeds
    load and raises when they do not, because every run fetches the
    information feed again (and the status feed when it is not cached);
    a second read returns the same stations. *)
Theorem getSnapshot_reads_stored net now p (w : @world G) snap :
  session_state w = Some snap →
  (getSnapshot net now p w).1
  = match stations_base net w with
    | Ok _ => Ok (stations snap)
    | Raise e => Raise e
    end
  ∧ session_state (getSnapshot net now p w).2 = Some snap
  ∧ random (getSnapshot net now p w).2 = random w
  ∧ (∀ rows, stations_base net w = Ok rows →
       requests (getSnapshot net now p w).2 = requests w ++ run_requests net w
       ∧ GetInfo (station_info_url net) ∈ run_requests net w)
  ∧ ∀ net2 now2 p2,
      (getSnapshot net2 now2 p2 (getSnapshot net now p w).2).1
      = match stations_base net2 (getSnapshot net now p w).2 with
        | Ok _ => Ok (stations snap)
        | Raise e => Raise e
        end.
Proof.
  intros Hss.
  assert (Hread : ∀ net now p (w : @world G),
    session_state w = Some snap →
    (getSnapshot net now p w).1
    = match stations_base net w with
      | Ok _ => Ok (stations snap)
      | Raise e => Raise e
      end
    ∧ session_state (getSnapshot net now p w).2 = Some snap
    ∧ random (getSnapshot net now p w).2 = random w
    ∧ (∀ rows, stations_base net w = Ok rows →
         requests (getSnapshot net now p w).2 = requests w ++ run_requests net w)).
  { clear. intros net now p w Hss. unfold getSnapshot.
    destruct (stations_base net w) as [rows|e] eqn:Hbase.
    - destruct (stations_base_Ok _ _ _ Hbase) as (df & info & Hdf & _ & _).
      destruct (script_run_loaded net now p false w df rows Hdf Hbase)
        as (res & ss' & g' & -> & Hpost).
      rewrite Hss in Hpost.
      replace (refreshing p false) with false in Hpost by by destruct p.
      destruct Hpost as (-> & -> & ->). cbn. repeat split; done.
    - rewrite (script_run_failed net now p false w e Hbase). cbn.
      repeat split; done. }
  destruct (Hread net now p w Hss) as (Hres & Hss' & Hrand & Hreq).
  split; [done|]. split; [done|]. split; [done|]. split.
  - intros rows Hrows. split; [by eapply Hreq|].
    unfold run_requests. apply elem_of_app. right. left.
  - intros net2 now2 p2. by apply Hread.
Qed.

(** C5, as the code has it. A refresh runs the generator over the list
    the run reconciles from the status frame (cached, as a rule) and the
    information feed, which it fetches again.  When every row has a valid
    capacity the new snapshot has one station per row, in order, with the
    row's columns, the three flags set, and the new timestamp; when the
    stored snapshot was generated from the same list, the stations differ
    in [bikes_available] and [docks_available] at most. *)
Theorem refresh_regenerates net now (w : @world G) snap rows :
  session_state w = Some snap →
  stations_base net w = Ok rows →
  Forall valid_capacity rows →
  ∃ new,
    (refresh net now w).1 = Ok new
    ∧ session_state (refresh net now w).2
      = Some {| last_update := now; stations := new |}
    ∧ Forall2 generated rows new
    ∧ Station.row <$> new = Row.set_flags <$> rows
    ∧ requests (refresh net now w).2 = requests w ++ run_requests net w
    ∧ (is_Some (cache_data w) →
       run_requests net w = [GetInfo (station_info_url net)]
       ∧ cache_data (refresh net now w).2 = cache_data w)
    ∧ (Forall2 generated rows (stations snap) →
       Station.row <$> new = Station.row <$> stations snap
       ∧ Station.station_id <$> new = Station.station_id <$> stations snap
       ∧ Station.capacity <$> new = Station.capacity <$> stations snap
       ∧ Station.name <$> new = Station.name <$> stations snap
       ∧ Station.lat <$> new = Station.lat <$> stations snap
       ∧ Station.lon <$> new = Station.lon <$> stations snap).
Proof.
  intros Hss Hbase Hvalid. unfold refresh.
  destruct (stations_base_Ok _ _ _ Hbase) as (df & info & Hdf & _ & _).
  destruct (script_run_loaded net now Settings true w df rows Hdf Hbase)
    as (res & ss' & g' & -> & Hpost).
  rewrite Hss in Hpost. cbn [refreshing] in Hpost.
  destruct Hpost as (new & -> & Hgen & Hok & Hcase).
  rewrite (Hok Hvalid) in Hcase |- *.
  destruct Hcase as [[_ Hlen]|[[=] _]].
  rewrite Hlen, firstn_all in Hgen.
  assert (Hrows : ∀ sts, Forall2 generated rows sts →
            Station.row <$> sts = Row.set_flags <$> rows).
  { clear. intros sts Hgen.
    induction Hgen as [|row s rows sts [Hrow _] _ IH]; [done|].
    by rewrite !fmap_cons, Hrow, IH. }
  exists new. cbn [fst snd session_state cache_data requests].
  split; [done|]. split; [done|]. split; [done|].
  split; [by apply Hrows|]. split; [done|]. split.
  - intros [df0 Hdf0]. unfold run_requests, status_frame in *.
    rewrite Hdf0 in *. by simplify_eq.
  - intros Hold.
    assert (Heq : Station.row <$> new = Station.row <$> stations snap)
      by by rewrite (Hrows _ Hgen), (Hrows _ Hold).
    split; [done|].
    unfold Station.station_id, Station.capacity, Station.name, Station.lat, Station.lon.
    repeat split.
    + by rewrite !(list_fmap_compose Station.row Row.station_id), Heq.
    + by rewrite !(list_fmap_compose Station.row Row.capacity), Heq.
    + by rewrite !(list_fmap_compose Station.row Row.name), Heq.
    + by rewrite !(list_fmap_compose Station.row Row.lat), Heq.
    + by rewrite !(list_fmap_compose Station.row Row.lon), Heq.
Qed.




End Script_facts.

(** ** The script on the sample feeds *)

Lemma sample_materialized_reachable : reachable Sample.materialized.
Proof. apply reachable_run, reachable_initial. Qed.

Lemma sample_materialized_session :
  session_state Sample.materialized
  = Some {| last_update := 1700000100; stations := Sample.stored |}.
Proof. vm_compute. reflexivity. Qed.

Lemma generator_within_capacity_witness :
  Forall (λ s, ∃ c, Station.capacity s = Some c
                 ∧ 0 ≤ Station.bikes_available s ≤ c
                 ∧ Station.bikes_available s + Station.docks_available s = c)
    Sample.stored.
Proof.
  apply Forall_forall. intros s Hs.
  exact (proj2 generator_within_capacity Sample.materialized
           sample_materialized_reachable _ s sample_materialized_session Hs).
Defined.

Lemma snapshot_holds_active_stations_only_witness :
  Forall (λ s, Station.is_renting s = true ∧ Station.is_returning s = true)
    Sample.stored.
Proof.
  apply Forall_forall. intros s Hs.
  destruct (proj2 (proj2 (proj2 snapshot_holds_active_stations_only))
              Sample.materialized sample_materialized_reachable _ s
              sample_materialized_session Hs) as (Hrent & Hret & _).
  split; [exact Hrent|exact Hret].
Defined.

Lemma getSnapshot_reads_stored_witness :
  (getSnapshot Sample.net 1700000200 Map Sample.materialized).1 = Ok Sample.stored
  ∧ session_state (getSnapshot Sample.net 1700000200 Map Sample.materialized).2
    = Some {| last_update := 1700000100; stations := Sample.stored |}.
Proof.
  destruct (getSnapshot_reads_stored Sample.net 1700000200 Map Sample.materialized _
              sample_materialized_session) as (Hres & Hss & _).
  split; [|exact Hss]. rewrite Hres. vm_compute. reflexivity.
Defined.

(** C4 as stated fails: a second read fetches the information feed again,
    and raises instead of returning the stored stations when that endpoint
    is down. *)
Lemma getSnapshot_fetches_again :
  is_Some (session_state Sample.materialized)
  ∧ (getSnapshot Sample.net_down 1700000200 Dashboard Sample.materialized).1
    = Raise URLError
  ∧ requests (getSnapshot Sample.net 1700000200 Dashboard Sample.materialized).2
    = requests Sample.materialized ++ [GetInfo (station_info_url Sample.net)].
Proof.
  split; [by rewrite sample_materialized_session|].
  split; vm_compute; reflexivity.
Qed.

Lemma sample_rows : stations_base Sample.net Sample.materialized = Ok Sample.rows.
Proof. vm_compute. reflexivity. Qed.

Lemma sample_rows_valid : Forall valid_capacity Sample.rows.
Proof.
  assert (∃ rows, Sample.rows = rows ∧ Forall valid_capacity rows) as (? & -> & ?);
    [|done].
  eexists. split; [vm_compute; reflexivity|].
  repeat (apply Forall_cons; split; [eexists; split; [reflexivity|lia]|]).
  constructor.
Qed.

Lemma sample_stored_generated : Forall2 generated Sample.rows Sample.stored.
Proof.
  repeat (apply Forall2_cons; split;
          [split; [reflexivity|eexists; split; [reflexivity|simpl; lia]]|]).
  constructor.
Qed.

(** A refresh on unchanged feeds keeps the station ids and capacities. *)
Lemma refresh_regenerates_witness :
  ∃ new,
    (refresh Sample.net 1700000300 Sample.materialized).1 = Ok new
    ∧ Station.station_id <$> new = ["A"; "B"]
    ∧ Station.capacity <$> new = [Some 10; Some 7].
Proof.
  destruct (refresh_regenerates Sample.net 1700000300 Sample.materialized _ Sample.rows
              sample_materialized_session sample_rows sample_rows_valid)
    as (new & Hres & _ & _ & _ & _ & _ & Hsame).
  destruct (Hsame sample_stored_generated) as (_ & Hid & Hcap & _).
  exists new. split; [exact Hres|]. split; [exact Hid|exact Hcap].
Defined.

(** C5 as stated fails: the refresh follows the information feed of its
    own run, which it fetches, so capacities and the list of station ids
    change with that feed. *)
Lemma refresh_follows_information_feed :
  Station.station_id <$> Sample.stored = ["A"; "B"]
  ∧ Station.capacity <$> Sample.stored = [Some 10; Some 7]
  ∧ ∃ new,
      (refresh Sample.net_changed 1700000300 Sample.materialized).1 = Ok new
      ∧ Station.station_id <$> new = ["A"; "B"; "B"]
      ∧ Station.capacity <$> new = [Some 12; Some 7; Some 9]
      ∧ requests (refresh Sample.net_changed 1700000300 Sample.materialized).2
        = requests Sample.materialized ++ [GetInfo (station_info_url Sample.net_changed)].
Proof.
  split; [vm_compute; reflexivity|].
  split; [vm_compute; reflexivity|].
  eexists. split; [vm_compute; reflexivity|].
  split; [vm_compute; reflexivity|].
  split; vm_compute; reflexivity.
Qed.


(** A status feed whose only station is not renting: the run raises at
    [tz_localize], and nothing is stored or cached. *)
Example inactive_feed_raises :
  let net := {| station_status_url := Document [Sample.status "C" false 1700000030];
                station_info_url := station_info_url Sample.net |} in
  query_station_status (station_status_url net) = Raise AttributeError
  ∧ (script net 1700000100 Dashboard false (initial 7)).1 = Raise AttributeError
  ∧ session_state (script net 1700000100 Dashboard false (initial 7)).2 = None
  ∧ cache_data (script net 1700000100 Dashboard false (initial 7)).2 = None.
Proof. repeat split; vm_compute; reflexivity. Qed.


(** ** Route helpers *)

Lemma filter_app_cons_inv {A : Type} (P : A → Prop) `{∀ x, Decision (P x)}
    (l a1 a2 : list A) (x : A) :
  filter P l = a1 ++ x :: a2 →
  ∃ b1 b2, l = b1 ++ x :: b2 ∧ filter P b1 = a1 ∧ filter P b2 = a2 ∧ P x.
Proof.
  revert a1. induction l as [|y l IH]; intros a1 Hl.
  { by destruct a1. }
  rewrite filter_cons in Hl. case_decide as Hy.
  - destruct a1 as [|z a1]; simplify_eq/=.
    + exists [], l. by rewrite filter_nil.
    + destruct (IH a1) as (b1 & b2 & -> & <- & <- & Hx); [done|].
      exists (z :: b1), b2. by rewrite filter_cons_True.
  - destruct (IH a1 Hl) as (b1 & b2 & -> & <- & <- & Hx).
    exists (y :: b1), b2. by rewrite filter_cons_False.
Qed.

Section availability_facts.
Context {L D : Type} `{EqDecision D} (lt : relation D) `{RelDecision D D lt}.
Context (geodesic : L → option PyFloat.float → option PyFloat.float → result D).

(** The distance of a row. *)
Local Abbreviation dist latlon row := (geodesic latlon (Row.lat row) (Row.lon row)).

Lemma with_distance_Ok latlon df dd :
  with_distance geodesic latlon df = Ok dd →
  df = fst <$> dd ∧ Forall (λ rd, dist latlon rd.1 = Ok rd.2) dd.
Proof.
  unfold with_distance. intros Hdd%map_result_Forall2.
  induction Hdd as [|row rd df dd Hrow _ [-> IH]]; [done|].
  destruct (dist latlon row) as [d|] eqn:Hd; simplify_eq/=.
  split; [done|]. by constructor.
Qed.

Lemma with_distance_Raise latlon df1 row df2 e :
  Forall (λ r, ∃ d, dist latlon r = Ok d) df1 →
  dist latlon row = Raise e →
  with_distance geodesic latlon (df1 ++ row :: df2) = Raise e.
Proof.
  intros Hdf1 Hrow. unfold with_distance.
  induction Hdf1 as [|r df1 [d Hd] _ IH]; simpl.
  - by rewrite Hrow.
  - rewrite Hd. simpl. by rewrite IH.
Qed.

Lemma min_from_elem_of best l : min_from lt best l ∈ best :: l.
Proof.
  revert best. induction l as [|x l IH]; intros best; simpl; [left|].
  specialize (IH (if decide (lt x best) then x else best)).
  case_decide; apply elem_of_cons in IH as [->|?].
  - right. left.
  - by do 2 right.
  - left.
  - by do 2 right.
Qed.

(** What [closest_available] returns is a row of the frame that has
    something available. *)
Lemma closest_available_elem_of available latlon df c :
  closest_available lt geodesic available latlon df = Return (Some c) →
  ∃ row, row ∈ df ∧ 0 < available row
    ∧ c = (Row.station_id row, Row.lat row, Row.lon row).
Proof.
  unfold closest_available.
  destruct (with_distance geodesic latlon df) as [dd|] eqn:Hdd; [|done].
  apply with_distance_Ok in Hdd as [-> _]. simpl.
  destruct (filter _ dd) as [|rd0 rest] eqn:Hf; [done|]. rewrite <-Hf.
  destruct (filter (λ rd, rd.2 = _) _) as [|rd t] eqn:Hm; [done|].
  intros [= <-].
  assert (Hrd : rd ∈ filter (λ rd : Row.t * D, rd.2 = min_from lt rd0.2 (snd <$> rest))
                     (filter (λ rd, 0 < available rd.1) dd)) by (rewrite Hm; left).
  apply list_elem_of_filter in Hrd as [_ Hrd].
  apply list_elem_of_filter in Hrd as [Hpos Hrd].
  exists rd.1. split; [by apply list_elem_of_fmap_2|done].
Qed.

Context `{!StrictOrder lt} `{!Trichotomy lt}.

Lemma min_from_lower_bound best l x :
  x ∈ best :: l → ¬ lt x (min_from lt best l).
Proof.
  revert best x. induction l as [|y l IH]; intros best x; simpl.
  { intros ->%list_elem_of_singleton. apply irreflexivity, _. }
  intros Hx. case_decide as Hy.
  - apply elem_of_cons in Hx as [->|[->|Hx]%elem_of_cons].
    + intros Hlt. apply (IH y y); [left|]. by etrans.
    + apply IH. left.
    + apply IH. by right.
  - apply elem_of_cons in Hx as [->|[->|Hx]%elem_of_cons].
    + apply IH. left.
    + intros Hlt. apply Hy.
      destruct (trichotomy lt best (min_from lt best l)) as [Hb|[Hb|Hb]].
      * by destruct (IH best best (list_elem_of_here _ _)).
      * by rewrite Hb.
      * by etrans.
    + apply IH. by right.
Qed.

(** The result of the two functions on a frame whose distances can all be
    computed. *)
Lemma closest_available_spec available latlon df dd :
  with_distance geodesic latlon df = Ok dd →
  (closest_available lt geodesic available latlon df = Return None
   ∧ Forall (λ row, available row ≤ 0) df)
  ∨ ∃ df1 row df2 d,
      closest_available lt geodesic available latlon df
      = Return (Some (Row.station_id row, Row.lat row, Row.lon row))
      ∧ df = df1 ++ row :: df2
      ∧ 0 < available row
      ∧ dist latlon row = Ok d
      ∧ (∀ row' d', row' ∈ df → 0 < available row' →
           dist latlon row' = Ok d' → ¬ lt d' d)
      ∧ (∀ row' d', row' ∈ df1 → 0 < available row' →
           dist latlon row' = Ok d' → lt d d').
Proof.
  intros Hdd. unfold closest_available. rewrite Hdd. simpl.
  apply with_distance_Ok in Hdd as [-> Hdist].
  destruct (filter _ dd) as [|rd0 rest] eqn:Hf.
  { left. split; [done|]. apply Forall_forall.
    intros row (rd & -> & Hrd)%list_elem_of_fmap.
    destruct (decide (0 < available rd.1)) as [Hpos|]; [|lia].
    by destruct (filter_nil_not_elem_of _ _ rd Hf Hpos). }
  right. rewrite <-Hf.
  set (m := min_from lt rd0.2 (snd <$> rest)).
  assert (Hm : m ∈ snd <$> filter (λ rd, 0 < available rd.1) dd).
  { rewrite Hf, fmap_cons. apply min_from_elem_of. }
  assert (Hlow : ∀ rd, rd ∈ filter (λ rd, 0 < available rd.1) dd → ¬ lt rd.2 m).
  { intros rd Hrd. apply min_from_lower_bound.
    rewrite Hf in Hrd. rewrite <-(fmap_cons snd). by apply list_elem_of_fmap_2. }
  apply list_elem_of_fmap in Hm as (rdm & Hrdm & Hin).
  destruct (filter (λ rd : Row.t * D, rd.2 = m) _) as [|rd t] eqn:Hfm.
  { by destruct (filter_nil_not_elem_of _ _ rdm Hfm (eq_sym Hrdm)). }
  apply (filter_app_cons_inv _ _ []) in Hfm as (a1 & a2 & Ha & Ha1 & _ & Hrd).
  apply filter_app_cons_inv in Ha as (b1 & b2 & -> & Hb1 & _ & Hpos).
  exists (fst <$> b1), rd.1, (fst <$> b2), rd.2.
  split; [done|]. split; [by rewrite fmap_app|]. split; [done|].
  rewrite Forall_forall in Hdist.
  split; [apply Hdist, elem_of_app; right; left|]. split.
  - intros row' d' (rd' & -> & Hrd')%list_elem_of_fmap Hpos' Hd'.
    pose proof (Hdist rd' Hrd') as Hrd''.
    rewrite Hd' in Hrd''. injection Hrd'' as ->. rewrite Hrd. apply Hlow.
    by apply list_elem_of_filter.
  - intros row' d' (rd' & -> & Hrd')%list_elem_of_fmap Hpos' Hd'.
    assert (Hrd'' : dist latlon rd'.1 = Ok rd'.2)
      by (apply Hdist, elem_of_app; by left).
    rewrite Hd' in Hrd''. injection Hrd'' as ->.
    assert (Hne : rd'.2 ≠ m).
    { intros Heq.
      assert (Hmem : rd' ∈ filter (λ rd : Row.t * D, rd.2 = m) a1).
      { apply list_elem_of_filter. split; [done|]. rewrite <-Hb1.
        by apply list_elem_of_filter. }
      rewrite Ha1 in Hmem. by apply elem_of_nil in Hmem. }
    assert (Hnlt : ¬ lt rd'.2 m).
    { apply Hlow. apply list_elem_of_filter. split; [done|].
      apply elem_of_app. by left. }
    rewrite Hrd. destruct (trichotomy lt m rd'.2) as [?|[?|?]]; done.
Qed.

End availability_facts.

(** X1. On a frame whose distances can all be computed,
    [get_bike_availability] does not raise: it returns [None] when no
    station has a bike, and otherwise the id, lat and lon of a station
    with a bike that no station with a bike is closer than, the first such
    station of the frame. *)
Theorem get_bike_availability_nearest
    {L D : Type} `{EqDecision D} (lt : relation D) `{RelDecision D D lt}
    `{!StrictOrder lt} `{!Trichotomy lt}
    (geodesic : L → option PyFloat.float → option PyFloat.float → result D)
    (latlon : L) (df : list Row.t) (dd : list (Row.t * D)) :
  with_distance geodesic latlon df = Ok dd →
  (get_bike_availability lt geodesic latlon df = Return None
   ∧ Forall (λ row, StatusRow.num_bikes_available (Row.status row) ≤ 0) df)
  ∨ ∃ df1 row df2 d,
      get_bike_availability lt geodesic latlon df
      = Return (Some (Row.station_id row, Row.lat row, Row.lon row))
      ∧ df = df1 ++ row :: df2
      ∧ 0 < StatusRow.num_bikes_available (Row.status row)
      ∧ geodesic latlon (Row.lat row) (Row.lon row) = Ok d
      ∧ (∀ row' d', row' ∈ df →
           0 < StatusRow.num_bikes_available (Row.status row') →
           geodesic latlon (Row.lat row') (Row.lon row') = Ok d' → ¬ lt d' d)
      ∧ (∀ row' d', row' ∈ df1 →
           0 < StatusRow.num_bikes_available (Row.status row') →
           geodesic latlon (Row.lat row') (Row.lon row') = Ok d' → lt d d').
Proof. apply closest_available_spec; assumption. Qed.

Lemma Z_lt_trichotomy : Trichotomy Z.lt.
Proof. intros x y. lia. Qed.

Lemma get_bike_availability_nearest_witness :
  get_bike_availability Z.lt RouteSample.line_distance 4 RouteSample.frame
  = Return (Some ("C", Some (PyFloat.exact 1), Some (PyFloat.exact 139))).
Proof.
  destruct (get_bike_availability_nearest Z.lt (Trichotomy0 := Z_lt_trichotomy)
              RouteSample.line_distance 4 RouteSample.frame _ eq_refl)
    as [[Hnone _]|(df1 & row & df2 & d & Hres & _)].
  - vm_compute in Hnone. discriminate Hnone.
  - vm_compute. reflexivity.
Defined.

(** X2. [get_dock_availability] is the same search on the docks: [None]
    when no station has a free dock, and otherwise the first station of
    the frame among the closest ones that have a free dock. *)
Theorem get_dock_availability_nearest
    {L D : Type} `{EqDecision D} (lt : relation D) `{RelDecision D D lt}
    `{!StrictOrder lt} `{!Trichotomy lt}
    (geodesic : L → option PyFloat.float → option PyFloat.float → result D)
    (latlon : L) (df : list Row.t) (dd : list (Row.t * D)) :
  with_distance geodesic latlon df = Ok dd →
  (get_dock_availability lt geodesic latlon df = Return None
   ∧ Forall (λ row, StatusRow.num_docks_available (Row.status row) ≤ 0) df)
  ∨ ∃ df1 row df2 d,
      get_dock_availability lt geodesic latlon df
      = Return (Some (Row.station_id row, Row.lat row, Row.lon row))
      ∧ df = df1 ++ row :: df2
      ∧ 0 < StatusRow.num_docks_available (Row.status row)
      ∧ geodesic latlon (Row.lat row) (Row.lon row) = Ok d
      ∧ (∀ row' d', row' ∈ df →
           0 < StatusRow.num_docks_available (Row.status row') →
           geodesic latlon (Row.lat row') (Row.lon row') = Ok d' → ¬ lt d' d)
      ∧ (∀ row' d', row' ∈ df1 →
           0 < StatusRow.num_docks_available (Row.status row') →
           geodesic latlon (Row.lat row') (Row.lon row') = Ok d' → lt d d').
Proof. apply closest_available_spec; assumption. Qed.

Lemma get_dock_availability_nearest_witness :
  get_dock_availability Z.lt RouteSample.line_distance 4 RouteSample.frame
  = Return (Some ("A", Some (PyFloat.exact 5), Some (PyFloat.exact 139))).
Proof.
  destruct (get_dock_availability_nearest Z.lt (Trichotomy0 := Z_lt_trichotomy)
              RouteSample.line_distance 4 RouteSample.frame _ eq_refl)
    as [[Hnone _]|(df1 & row & df2 & d & Hres & _)].
  - vm_compute in Hnone. discriminate Hnone.
  - vm_compute. reflexivity.
Defined.

(** X3. The distances are computed for every row before the rows without
    bikes or docks are dropped: a row whose distance cannot be computed
    makes both searches raise that error, whatever the row has available
    and whatever the other rows are. *)
Theorem availability_raises_on_any_row
    {L D : Type} `{EqDecision D} (lt : relation D) `{RelDecision D D lt}
    (geodesic : L → option PyFloat.float → option PyFloat.float → result D)
    (latlon : L) (df1 : list Row.t) (row : Row.t) (df2 : list Row.t) (e : exn) :
  Forall (λ r, ∃ d, geodesic latlon (Row.lat r) (Row.lon r) = Ok d) df1 →
  geodesic latlon (Row.lat row) (Row.lon row) = Raise e →
  get_bike_availability lt geodesic latlon (df1 ++ row :: df2) = Throw (Builtin e)
  ∧ get_dock_availability lt geodesic latlon (df1 ++ row :: df2) = Throw (Builtin e).
Proof.
  intros Hdf1 Hrow.
  unfold get_bike_availability, get_dock_availability, closest_available.
  by rewrite (with_distance_Raise geodesic latlon df1 row df2 e Hdf1 Hrow).
Qed.

(** A station without coordinates, after station A. *)
Lemma availability_raises_on_any_row_witness :
  get_bike_availability Z.lt RouteSample.line_distance 4
    [RouteSample.row "A" 5 2 4; Row.unmatched (Sample.status_row "Z" 1700000000)]
  = Throw (Builtin ValueError).
Proof.
  refine (proj1 (availability_raises_on_any_row Z.lt RouteSample.line_distance 4
                   [RouteSample.row "A" 5 2 4]
                   (Row.unmatched (Sample.status_row "Z" 1700000000)) [] ValueError _ _)).
  - repeat constructor. by eexists.
  - reflexivity.
Defined.





(** X5. [run_osrm] raises, outside its [try], on the failure values of
    the functions before it: IndexError on the empty string [geocode]
    returns when the address is not found or the geocoder fails, and
    TypeError on the [None] [get_bike_availability] returns when no
    station has a bike. *)
Theorem run_osrm_raises_on_failure_values
    {L D : Type} `{EqDecision D} (lt : relation D) `{RelDecision D D lt}
    `{!StrictOrder lt} `{!Trichotomy lt}
    (geodesic : L → option PyFloat.float → option PyFloat.float → result D)
    (osrm : route_query → osrm_answer) (latlon : L) (df : list Row.t)
    (dd : list (Row.t * D)) :
  with_distance geodesic latlon df = Ok dd →
  Forall (λ row, StatusRow.num_bikes_available (Row.status row) ≤ 0) df →
  (∀ latitude longitude,
     (chosen ← get_bike_availability lt geodesic latlon df;
      run_osrm osrm chosen (At latitude longitude)) = Throw TypeError)
  ∧ (∀ chosen a, geocode a = Nowhere → run_osrm osrm chosen (geocode a) = Throw IndexError)
  ∧ geocode GeocoderError = Nowhere ∧ geocode NoLocation = Nowhere.
Proof.
  intros Hdd Hnone. split; [|split; [|done]].
  - intros latitude longitude.
    destruct (closest_available_spec lt geodesic
                (λ row, StatusRow.num_bikes_available (Row.status row)) latlon df dd Hdd)
      as [[Hres _]|(df1 & row & df2 & d & _ & -> & Hpos & _)].
    + unfold get_bike_availability. by rewrite Hres.
    + apply Forall_app in Hnone as [_ [Hrow _]%Forall_cons]. lia.
  - intros chosen a ->. done.
Qed.

Lemma run_osrm_raises_on_failure_values_witness :
  (chosen ← get_bike_availability Z.lt RouteSample.line_distance 4
              [RouteSample.row "A" 5 0 6];
   run_osrm RouteSample.answer chosen (At (PyFloat.of_int 35) (PyFloat.of_int 139)))
  = Throw TypeError.
Proof.
  refine (proj1 (run_osrm_raises_on_failure_values Z.lt (Trichotomy0 := Z_lt_trichotomy)
                   RouteSample.line_distance RouteSample.answer 4
                   [RouteSample.row "A" 5 0 6] _ eq_refl _) _ _).
  repeat constructor. simpl. lia.
Defined.


(** ** The merge in general *)

Lemma merge_left_elem_of left right out row :
  merge_left left right = Ok out → row ∈ out →
  ∃ l, l ∈ left
    ∧ (row = Row.unmatched l
       ∧ (∀ i, i ∈ right → StationInfo.station_id i ≠ StatusRow.station_id l)
       ∨ ∃ i, i ∈ right
           ∧ StationInfo.station_id i = StatusRow.station_id l
           ∧ row = Row.matched l i).
Proof.
  unfold merge_left. destruct right as [|i0 right0] eqn:Hr; [done|].
  rewrite <-Hr. clear Hr. intros [= <-].
  intros (l & Hrow & Hl)%list_elem_of_bind. exists l. split; [done|].
  destruct (filter _ right) as [|i matches] eqn:Hf.
  - apply list_elem_of_singleton in Hrow as ->. left. split; [done|].
    intros j Hj Hid. by destruct (filter_nil_not_elem_of _ _ j Hf Hid).
  - right. apply (list_elem_of_fmap (Row.matched l) (i :: matches)) in Hrow
      as (j & -> & Hj).
    rewrite <-Hf in Hj. apply list_elem_of_filter in Hj as [Hid Hj].
    by exists j.
Qed.

Lemma merge_left_groups (left : list StatusRow.t) (right : list StationInfo.t) out :
  merge_left left right = Ok out →
  ∃ groups, out = concat groups ∧ Forall2 (rows_of right) left groups.
Proof.
  unfold merge_left. destruct right as [|i0 right0] eqn:Hr; [done|].
  rewrite <-Hr. clear Hr. intros [= <-].
  induction left as [|l left (groups & IHout & IH)].
  { exists []. split; [done|constructor]. }
  change ((l :: left) ≫= ?f) with (f l ++ (left ≫= f)).
  eexists (_ :: groups). split; [by rewrite IHout|].
  constructor; [|done]. unfold rows_of, records_of.
  destruct (filter _ right) as [|i matches]; [by left|by right].
Qed.

Lemma rows_of_status right l g :
  rows_of right l g →
  Row.status <$> g = replicate (Nat.max 1 (length (records_of right l))) l.
Proof.
  intros [[-> ->]|[Hne ->]]; [done|].
  destruct (records_of right l) as [|i matches]; [done|].
  rewrite Nat.max_r by (simpl; lia).
  generalize (i :: matches). intros records.
  induction records as [|j records IH]; [done|].
  rewrite !fmap_cons, IH. done.
Qed.

(** X6. Whatever the information feed holds, as long as it is not empty,
    the merge drops no status row and keeps their order; a status row
    without information record gives one row with nulls, and a status row
    with [k] information records of its station id gives [k] rows, one per
    record and in the order of the records; the merged frame is these
    groups of rows, one group per status row, and nothing else; a row
    never carries the information of another station id. *)
Theorem merge_left_keeps_every_status_row
    (left : list StatusRow.t) (right : list StationInfo.t) :
  right ≠ [] →
  ∃ out,
    merge_left left right = Ok out
    ∧ left `sublist_of` (Row.status <$> out)
    ∧ (∀ row, row ∈ out →
         ∃ l, l ∈ left
           ∧ (row = Row.unmatched l
              ∧ (∀ i, i ∈ right → StationInfo.station_id i ≠ StatusRow.station_id l)
              ∨ ∃ i, i ∈ right
                  ∧ StationInfo.station_id i = StatusRow.station_id l
                  ∧ row = Row.matched l i))
    ∧ (∀ l i, l ∈ left → i ∈ right →
         StationInfo.station_id i = StatusRow.station_id l →
         Row.matched l i ∈ out)
    ∧ (∀ l, l ∈ left →
         (∀ i, i ∈ right → StationInfo.station_id i ≠ StatusRow.station_id l) →
         Row.unmatched l ∈ out)
    ∧ (∃ groups, out = concat groups ∧ Forall2 (rows_of right) left groups)
    ∧ Row.status <$> out
      = (l ← left; replicate (Nat.max 1 (length (records_of right l))) l)
    ∧ length out
      = sum_list_with (λ l, Nat.max 1 (length (records_of right l))) left.
Proof.
  intros Hne.
  destruct (merge_left left right) as [out|e] eqn:Hout.
  2:{ unfold merge_left in Hout. by destruct right. }
  exists out. split; [done|]. split; [|split; [|split; [|split; [|split; [|split]]]]].
  5:{ by apply merge_left_groups. }
  5:{ destruct (merge_left_groups _ _ _ Hout) as (groups & -> & Hgroups).
      clear Hout. induction Hgroups as [|l g left groups Hg _ IH]; [done|].
      change ((l :: left) ≫= ?f) with (f l ++ (left ≫= f)).
      simpl concat. rewrite fmap_app, IH. f_equal. by apply rows_of_status. }
  5:{ destruct (merge_left_groups _ _ _ Hout) as (groups & -> & Hgroups).
      clear Hout. induction Hgroups as [|l g left groups Hg _ IH]; [done|].
      simpl. rewrite length_app, IH. f_equal.
      rewrite <-(length_fmap Row.status), (rows_of_status _ _ _ Hg).
      by rewrite length_replicate. }
  - unfold merge_left in Hout. destruct right as [|i0 right0] eqn:Hr; [done|].
    rewrite <-Hr in *. clear Hr Hne. injection Hout as <-.
    induction left as [|l left IH]; [done|].
    change ((l :: left) ≫= ?f) with (f l ++ (left ≫= f)). rewrite fmap_app.
    destruct (filter _ right) as [|i matches].
    + simpl. by apply sublist_skip.
    + rewrite fmap_cons. simpl. apply sublist_skip.
      by apply sublist_inserts_l.
  - intros row Hrow. by eapply merge_left_elem_of.
  - intros l i Hl Hi Hid. unfold merge_left in Hout.
    destruct right as [|i0 right0] eqn:Hr; [done|].
    rewrite <-Hr in *. clear Hr Hne. injection Hout as <-.
    apply list_elem_of_bind. exists l. split; [|done].
    assert (Hin : i ∈ filter (λ i, StationInfo.station_id i = StatusRow.station_id l) right)
      by by apply list_elem_of_filter.
    destruct (filter _ right) as [|j matches]; [by apply elem_of_nil in Hin|].
    by apply (list_elem_of_fmap_2 (Row.matched l) (j :: matches)).
  - intros l Hl Hno. unfold merge_left in Hout.
    destruct right as [|i0 right0] eqn:Hr; [done|].
    rewrite <-Hr in *. clear Hr Hne. injection Hout as <-.
    apply list_elem_of_bind. exists l. split; [|done].
    rewrite (filter_none _ right); [left|]. intros i Hi Hid. by apply (Hno i).
Qed.

Lemma merge_left_keeps_every_status_row_witness :
  ∃ out,
    merge_left [Sample.status_row "A" 1700000000; Sample.status_row "B" 1700000000]
      [Sample.info "B" "Ginza" 7; Sample.info "B" "Ginza East" 9] = Ok out
    ∧ [Sample.status_row "A" 1700000000; Sample.status_row "B" 1700000000]
      `sublist_of` (Row.status <$> out)
    ∧ length out = 3%nat.
Proof.
  destruct (merge_left_keeps_every_status_row
              [Sample.status_row "A" 1700000000; Sample.status_row "B" 1700000000]
              [Sample.info "B" "Ginza" 7; Sample.info "B" "Ginza East" 9])
    as (out & Hout & Hsub & _ & _ & _ & _ & _ & Hlen); [discriminate|].
  exists out. split; [exact Hout|]. split; [exact Hsub|].
  etrans; [exact Hlen|]. vm_compute. reflexivity.
Defined.

(** ** From the feeds to the proposed station *)

Lemma of_feed_available r row :
  StatusRow.of_feed r = Ok row →
  StatusRow.num_bikes_available row = StationStatus.num_bikes_available r
  ∧ StatusRow.num_docks_available row = StationStatus.num_docks_available r.
Proof.
  unfold StatusRow.of_feed.
  destruct (utcfromtimestamp _); simpl; [|done]. by intros [= <-].
Qed.

(** X7. The station [get_bike_availability] proposes on the frame that
    [join_latlon] makes of the status frame and the information records is
    a station of the status feed that was renting and returning and has a
    bike; its coordinates are those of an information record with its
    station id, or null when there is no such record. *)
Theorem proposed_station_is_active
    {L D : Type} `{EqDecision D} (lt : relation D) `{RelDecision D D lt}
    (geodesic : L → option PyFloat.float → option PyFloat.float → result D)
    (latlon : L) (feed : list StationStatus.t) (info : list StationInfo.t)
    (sdf : list StatusRow.t) (df : list Row.t)
    (id : string) (lat lon : option PyFloat.float) :
  query_station_status (Document feed) = Ok sdf →
  join_latlon sdf info = Ok df →
  get_bike_availability lt geodesic latlon df = Return (Some (id, lat, lon)) →
  (∃ r, r ∈ feed
     ∧ StationStatus.station_id r = id
     ∧ StationStatus.is_renting r = true
     ∧ StationStatus.is_returning r = true
     ∧ 0 < StationStatus.num_bikes_available r)
  ∧ ((∃ i, i ∈ info
        ∧ StationInfo.station_id i = id
        ∧ lat = Some (StationInfo.lat i)
        ∧ lon = Some (StationInfo.lon i))
     ∨ (∀ i, i ∈ info → StationInfo.station_id i ≠ id) ∧ lat = None ∧ lon = None).
Proof.
  intros Hq Hjoin Hres.
  apply closest_available_elem_of in Hres as (row & Hrow & Hpos & [= -> -> ->]).
  unfold join_latlon in Hjoin.
  destruct (merge_left_elem_of _ _ _ _ Hjoin Hrow) as (l & Hl & Hcase).
  destruct (query_station_status_origin _ _ _ Hq Hl)
    as (feed' & r & [= <-] & Hr & Hrent & Hret & Hof).
  pose proof (of_feed_Ok _ _ Hof) as (Hid & _).
  pose proof (of_feed_available _ _ Hof) as (Hbikes & _).
  assert (Hrow_status : Row.status row = l)
    by (destruct Hcase as [[-> _]|(? & _ & _ & ->)]; done).
  split.
  - exists r. unfold Row.station_id. rewrite Hrow_status, Hid.
    rewrite Hrow_status, Hbikes in Hpos. done.
  - unfold Row.station_id. rewrite Hrow_status.
    destruct Hcase as [[-> Hno]|(i' & Hi' & Hid' & ->)].
    + right. split; [|done]. intros i Hi Hidi.
      eapply Hno; [by apply list_elem_of_fmap_2|]. done.
    + left. apply list_elem_of_fmap in Hi' as (i & -> & Hi).
      exists i. done.
Qed.

Lemma proposed_station_is_active_witness :
  ∃ r, r ∈ RouteSample.feed
    ∧ StationStatus.station_id r = "E"
    ∧ StationStatus.is_renting r = true
    ∧ StationStatus.is_returning r = true
    ∧ 0 < StationStatus.num_bikes_available r.
Proof.
  refine (proj1 (proposed_station_is_active Z.lt RouteSample.line_distance 4
                   RouteSample.feed RouteSample.information _ _ "E"
                   (Some (PyFloat.exact 2)) (Some (PyFloat.exact 139)) _ _ _)).
  - vm_compute. reflexivity.
  - vm_compute. reflexivity.
  - vm_compute. reflexivity.
Defined.

(** ** The cleaning of the status feed, again *)

Lemma filter_all {A : Type} (P : A → Prop) `{∀ x, Decision (P x)} (l : list A) :
  (∀ x, x ∈ l → P x) → filter P l = l.
Proof.
  induction l as [|x l IH]; intros Hl; [done|].
  rewrite filter_cons_True by (apply Hl; left).
  f_equal. apply IH. intros y Hy. apply Hl. by right.
Qed.

Lemma drop_duplicates_seen_NoDup_id {A K : Type} `{EqDecision K}
    (subset : A → K) (seen : list K) (df : list A) :
  NoDup (subset <$> df) → (∀ r, r ∈ df → subset r ∉ seen) →
  drop_duplicates_seen subset seen df = df.
Proof.
  revert seen. induction df as [|r df IH]; intros seen Hnd Hseen; [done|].
  rewrite fmap_cons in Hnd. apply NoDup_cons in Hnd as [Hr Hnd]. simpl.
  rewrite decide_False by (apply Hseen; left).
  f_equal. apply IH; [done|].
  intros r' Hr' [Heq|Hin]%elem_of_cons.
  - apply Hr. rewrite <-Heq. by apply list_elem_of_fmap_2.
  - apply (Hseen r'); [by right|done].
Qed.

Lemma map_result_Raise {A B : Type} (f : A → result B) (l : list A) x :
  x ∈ l → (∃ e, f x = Raise e) →
  ∃ e y, map_result f l = Raise e ∧ y ∈ l ∧ f y = Raise e.
Proof.
  induction l as [|z l IH]; [by intros ?%elem_of_nil|].
  intros Hx Hfx. simpl.
  destruct (f z) as [b|e] eqn:Hz; simpl.
  - apply elem_of_cons in Hx as [->|Hx].
    { destruct Hfx as [e He]. congruence. }
    destruct (IH Hx Hfx) as (e & y & -> & Hy & Hfy). simpl.
    exists e, y. split; [done|]. split; [by right|done].
  - exists e, z. split; [done|]. split; [left|done].
Qed.

(** X8. Cleaning a cleaned status feed changes nothing: the records that
    [query_station_status] keeps pass its two filters and its removal of
    duplicates unchanged, and the frame made from the kept records alone is
    the frame made from the feed. *)
Theorem active_stations_idempotent (feed : list StationStatus.t) :
  active_stations (active_stations feed) = active_stations feed
  ∧ (active_stations feed ≠ [] →
     query_station_status (Document (active_stations feed))
     = query_station_status (Document feed)).
Proof.
  assert (Hidem : active_stations (active_stations feed) = active_stations feed).
  { unfold active_stations at 1.
    rewrite (filter_all _ (active_stations feed))
      by (by intros r (_ & ? & _)%active_stations_elem_of).
    rewrite (filter_all _ (active_stations feed))
      by (by intros r (_ & _ & ?)%active_stations_elem_of).
    apply drop_duplicates_seen_NoDup_id.
    - apply drop_duplicates_seen_NoDup.
    - by intros r _ ?%elem_of_nil. }
  split; [done|].
  intros Hne. unfold query_station_status. simpl. rewrite Hidem.
  destruct (active_stations feed) as [|r kept] eqn:Hkept; [done|].
  destruct feed as [|r0 feed]; [done|]. done.
Qed.

Lemma active_stations_idempotent_witness :
  query_station_status (Document (active_stations RouteSample.feed))
  = query_station_status (Document RouteSample.feed).
Proof.
  refine (proj2 (active_stations_idempotent RouteSample.feed) _).
  vm_compute. discriminate.
Defined.

Lemma map_result_Raise_inv {A B : Type} (f : A → result B) (l : list A) e :
  map_result f l = Raise e → ∃ y, y ∈ l ∧ f y = Raise e.
Proof.
  induction l as [|x l IH]; simpl; [done|].
  destruct (f x) as [y|e'] eqn:Hx; simpl.
  - destruct (map_result f l) as [ys|e']; simpl; [done|].
    intros [= ->]. destruct IH as (y' & ? & ?); [done|].
    exists y'. split; [by right|done].
  - intros [= ->]. exists x. split; [by left|done].
Qed.

Lemma tz_localize_Raise df e : tz_localize df = Raise e → e = AttributeError.
Proof.
  unfold tz_localize. destruct df; [by intros [= <-]|].
  destruct (forallb _ _); [done|by intros [= <-]].
Qed.

Lemma in_ns_bounds_utc (x : Z) :
  in_ns_bounds (utc x) = true ↔ -9223372036 ≤ x ≤ 9223372036.
Proof. unfold in_ns_bounds. rewrite andb_true_iff, !Z.leb_le. done. Qed.

(** What [utcfromtimestamp] does with the timestamp of a record. *)
Lemma of_feed_cases (r : StationStatus.t) :
  (-62135596800 ≤ StationStatus.last_reported r ≤ 253402300799 →
   ∃ row, StatusRow.of_feed r = Ok row)
  ∧ (¬ (-62135596800 ≤ StationStatus.last_reported r ≤ 253402300799) →
     ∃ e, StatusRow.of_feed r = Raise e)
  ∧ ∀ e, StatusRow.of_feed r = Raise e →
      e = ValueError ∨ e = OSError ∨ e = OverflowError.
Proof.
  unfold StatusRow.of_feed, utcfromtimestamp.
  destruct (Z.leb_spec (-62135596800) (StationStatus.last_reported r));
    destruct (Z.leb_spec (StationStatus.last_reported r) 253402300799); simpl;
    (split; [intros ?; try lia; by eexists|]);
    (split; [intros ?; try lia; repeat case_match; by eexists|]);
    repeat case_match; simpl; intros ? [= <-]; auto.
Qed.

(** X9. When it keeps at least one record, [query_station_status]
    returns a frame, of one row per kept record, if the timestamps of the
    kept records all fit datetime64[ns] (1677-09-21 00:12:44 to
    2262-04-11 23:47:16), and raises if one of them does not: ValueError,
    OSError or OverflowError from [utcfromtimestamp] when a kept timestamp
    lies outside the years 1 to 9999, AttributeError from [tz_localize]
    when they all lie within.  The timestamps of the records it drops do
    not matter. *)
Theorem query_station_status_timestamps (feed : list StationStatus.t) :
  active_stations feed ≠ [] →
  (Forall (λ r, -9223372036 ≤ StationStatus.last_reported r ≤ 9223372036)
     (active_stations feed) →
   ∃ df, query_station_status (Document feed) = Ok df
     ∧ length df = length (active_stations feed))
  ∧ (∀ r, r ∈ active_stations feed →
       ¬ (-9223372036 ≤ StationStatus.last_reported r ≤ 9223372036) →
       ∃ e, query_station_status (Document feed) = Raise e
         ∧ (e = ValueError ∨ e = OSError ∨ e = OverflowError ∨ e = AttributeError))
  ∧ (∀ r, r ∈ active_stations feed →
       ¬ (-62135596800 ≤ StationStatus.last_reported r ≤ 253402300799) →
       ∃ e, query_station_status (Document feed) = Raise e
         ∧ (e = ValueError ∨ e = OSError ∨ e = OverflowError))
  ∧ (∀ r, r ∈ active_stations feed →
       ¬ (-9223372036 ≤ StationStatus.last_reported r ≤ 9223372036) →
       Forall (λ r, -62135596800 ≤ StationStatus.last_reported r ≤ 253402300799)
         (active_stations feed) →
       query_station_status (Document feed) = Raise AttributeError).
Proof.
  intros Hne. unfold query_station_status. simpl.
  destruct feed as [|r0 feed0]; [done|].
  remember (r0 :: feed0) as feed eqn:Hfeed. clear Hfeed.
  assert (Hlocal : ∀ df r,
    map_result StatusRow.of_feed (active_stations feed) = Ok df →
    r ∈ active_stations feed →
    ¬ (-9223372036 ≤ StationStatus.last_reported r ≤ 9223372036) →
    tz_localize df = Raise AttributeError).
  { intros df r Hdf%map_result_Forall2 Hr Hbad.
    destruct (tz_localize df) as [df'|e] eqn:Htz.
    - apply tz_localize_Ok in Htz as (_ & _ & Hall).
      apply list_elem_of_lookup in Hr as [k Hk].
      destruct (Forall2_lookup_l _ _ _ _ _ Hdf Hk) as (row & Hrow & Hof).
      rewrite Forall_forall in Hall.
      specialize (Hall row (list_elem_of_lookup_2 _ _ _ Hrow)).
      apply of_feed_Ok in Hof as (_ & Hrep & Htime & _).
      rewrite Htime, Hrep, in_ns_bounds_utc in Hall. done.
    - by rewrite (tz_localize_Raise _ _ Htz). }
  split; [|split; [|split]].
  - intros Hrange.
    destruct (map_result_Ok StatusRow.of_feed (active_stations feed)) as [df Hdf].
    { eapply Forall_impl; [exact Hrange|]. intros r Hr. simpl in Hr.
      apply (proj1 (of_feed_cases r)). lia. }
    rewrite Hdf. simpl.
    pose proof (map_result_Forall2 _ _ _ Hdf) as Hrows.
    exists df. split; [|symmetry; by eapply Forall2_length].
    apply tz_localize_Forall.
    + intros ->. apply Forall2_nil_inv_r in Hrows. done.
    + apply Forall_forall. intros row Hrow.
      apply list_elem_of_lookup in Hrow as [k Hk].
      destruct (Forall2_lookup_r _ _ _ _ _ Hrows Hk) as (r & Hr & Hof).
      apply of_feed_Ok in Hof as (_ & Hrep & Htime & _).
      rewrite Htime, Hrep, in_ns_bounds_utc.
      rewrite Forall_forall in Hrange.
      apply Hrange. by eapply list_elem_of_lookup_2.
  - intros r Hr Hbad.
    destruct (map_result StatusRow.of_feed (active_stations feed)) as [df|e] eqn:Hmap;
      simpl.
    + exists AttributeError. split; [by eapply Hlocal|]. auto.
    + exists e. split; [done|].
      destruct (map_result_Raise_inv _ _ _ Hmap) as (y & _ & Hy).
      destruct (proj2 (proj2 (of_feed_cases y)) e Hy) as [->|[->| ->]]; auto.
  - intros r Hr Hbad.
    destruct (map_result_Raise StatusRow.of_feed (active_stations feed) r Hr)
      as (e & y & -> & _ & Hy).
    { by apply (proj1 (proj2 (of_feed_cases r))). }
    exists e. split; [done|]. by apply (proj2 (proj2 (of_feed_cases y))).
  - intros r Hr Hbad Hyears.
    destruct (map_result_Ok StatusRow.of_feed (active_stations feed)) as [df Hdf].
    { eapply Forall_impl; [exact Hyears|]. intros r' Hr'.
      by apply (proj1 (of_feed_cases r')). }
    rewrite Hdf. simpl. by eapply Hlocal.
Qed.

Lemma query_station_status_timestamps_witness :
  ∃ df, query_station_status (Document RouteSample.feed) = Ok df
    ∧ length df = length (active_stations RouteSample.feed).
Proof.
  refine (proj1 (query_station_status_timestamps RouteSample.feed _) _).
  - vm_compute. discriminate.
  - apply (bool_decide_unpack _). vm_compute. exact I.
Defined.

(** A report of the year 2300 is a datetime, and the frame with it has no
    DatetimeIndex. *)
Example query_station_status_year_2300 :
  query_station_status (Document [Sample.status "A" true 10413792000])
  = Raise AttributeError.
Proof. vm_compute. reflexivity. Qed.

(** ** The utilization column *)

Lemma digits2_pos_iter (p k : positive) :
  digits2_pos (Pos.iter xO p k) = (digits2_pos p + k)%positive.
Proof.
  induction k as [|k IH] using Pos.peano_ind.
  - simpl. by rewrite Pos.add_1_r.
  - rewrite Pos.iter_succ. simpl. rewrite IH. lia.
Qed.

Lemma digits2_pos_bound (p : positive) (n : Z) :
  Zpos p < 2 ^ n → 0 ≤ n → Zpos (digits2_pos p) ≤ n.
Proof.
  revert n. induction p as [p IH|p IH|]; intros n Hp Hn; simpl.
  - assert (n ≠ 0) by (intros ->; simpl in Hp; lia).
    assert (Zpos p < 2 ^ (n - 1)).
    { replace n with (Z.succ (n - 1)) in Hp by lia.
      rewrite Z.pow_succ_r in Hp by lia. lia. }
    specialize (IH (n - 1)). lia.
  - assert (n ≠ 0) by (intros ->; simpl in Hp; lia).
    assert (Zpos p < 2 ^ (n - 1)).
    { replace n with (Z.succ (n - 1)) in Hp by lia.
      rewrite Z.pow_succ_r in Hp by lia. lia. }
    specialize (IH (n - 1)). lia.
  - assert (n ≠ 0) by (intros ->; simpl in Hp; lia). lia.
Qed.

(** A mantissa of 53 bits with an exponent in range is not rounded. *)
Lemma binary_round_aux_exact (m : positive) (e : Z) :
  Zpos (digits2_pos m) = 53 → -1074 ≤ e ≤ 971 →
  binary_round_aux PyFloat.prec PyFloat.emax false (Zpos m) e loc_Exact
  = S754_finite false m e.
Proof.
  intros Hm He.
  assert (Hshift : fexp PyFloat.prec PyFloat.emax (Zdigits2 (Zpos m) + e) - e = 0).
  { unfold fexp, emin, PyFloat.prec, PyFloat.emax. simpl Zdigits2. rewrite Hm. lia. }
  unfold binary_round_aux, shr_fexp. rewrite Hshift.
  cbn [shr shr_record_of_loc shr_m loc_of_shr_record round_nearest_even shr_r shr_s].
  rewrite Hshift. cbn [shr shr_m].
  unfold PyFloat.prec, PyFloat.emax.
  destruct (Z.leb_spec e (1024 - 53)); [done|lia].
Qed.

(** An integer from 1 to [2^53 - 1] is a finite positive float. *)
Lemma of_int_finite (z : Z) :
  0 < z < 2 ^ 53 → ∃ m e, PyFloat.of_int z = S754_finite false m e.
Proof.
  intros [Hpos Hz]. destruct z as [|p|p]; try lia.
  pose proof (digits2_pos_bound p 53 Hz ltac:(lia)) as Hd.
  unfold PyFloat.of_int, binary_normalize, binary_round.
  assert (Hfexp : fexp PyFloat.prec PyFloat.emax (Zpos (digits2_pos p) + 0)
                  = Zpos (digits2_pos p) - 53).
  { unfold fexp, emin, PyFloat.prec, PyFloat.emax. lia. }
  rewrite Hfexp. unfold shl_align.
  destruct (Zpos (digits2_pos p) - 53 - 0) as [|k|k] eqn:Hk; try lia.
  - eexists _, _. apply binary_round_aux_exact; lia.
  - eexists _, _. apply binary_round_aux_exact; [|lia].
    rewrite digits2_pos_iter. lia.
Qed.

(** X10. A station of capacity zero has no percentage in the column of
    [calculate_station_utilization]: with bikes the cell is infinite, with
    none it is NaN, where [calculate_utilization] gives 0; and a null
    capacity gives NaN.  No row is lost and none raises. *)
Theorem calculate_station_utilization_zero_capacity (df : list Row.t) :
  fst <$> calculate_station_utilization df = df
  ∧ ∀ row u, (row, u) ∈ calculate_station_utilization df →
      (Row.capacity row = None → u = S754_nan)
      ∧ (Row.capacity row = Some 0 →
         StatusRow.num_bikes_available (Row.status row) = 0 →
         u = S754_nan
         ∧ calculate_utilization (StatusRow.num_bikes_available (Row.status row)) 0
           = Ok (PyInt 0))
      ∧ (Row.capacity row = Some 0 →
         0 < StatusRow.num_bikes_available (Row.status row) < 2 ^ 53 →
         u = S754_infinity false
         ∧ calculate_utilization (StatusRow.num_bikes_available (Row.status row)) 0
           = Ok (PyInt 0)).
Proof.
  split.
  { unfold calculate_station_utilization. rewrite <-list_fmap_compose.
    rewrite <-(list_fmap_id df) at 2. by apply list_fmap_ext. }
  intros row u (row' & [= <- ->] & _)%list_elem_of_fmap.
  unfold utilization_rate. split; [|split].
  - intros ->. by destruct (PyFloat.of_int _).
  - intros -> ->. done.
  - intros -> Hbikes. split; [|done].
    destruct (of_int_finite _ Hbikes) as (m & e & ->). reflexivity.
Qed.

(** A frame with a station that has no dock and no bike, and one with
    three bikes of four. *)
Example calculate_station_utilization_cells :
  calculate_station_utilization [RouteSample.row "Z" 5 0 0; RouteSample.row "A" 5 3 1]
  = [(RouteSample.row "Z" 5 0 0, S754_nan);
     (RouteSample.row "A" 5 3 1, PyFloat.of_int 75)].
Proof. vm_compute. reflexivity. Qed.

Lemma calculate_station_utilization_zero_capacity_witness :
  utilization_rate 3 (Some 0) = S754_infinity false.
Proof.
  refine (proj1 (proj2 (proj2 (proj2 (calculate_station_utilization_zero_capacity
                                        [RouteSample.row "Z" 5 3 (-3)])
                                 (RouteSample.row "Z" 5 3 (-3)) _ _))
                   eq_refl _)).
  - left.
  - simpl. lia.
Defined.

(** ** The session store, further *)

Section Session_facts.
Context {G : Type} `{RandomGen G}.

Lemma generated_valid_capacity row s : generated row s → valid_capacity row.
Proof. intros (_ & c & Hc & Hb & _). exists c. split; [done|lia]. Qed.

Lemma script_described net now p b (w : @world G) :
  described w → described (script net now p b w).2.
Proof.
  intros Hdesc.
  destruct (stations_base net w) as [rows|e] eqn:Hbase.
  - destruct (stations_base_Ok _ _ _ Hbase) as (df & info & Hdf & Hinfo & Hrows).
    destruct (script_run_loaded net now p b w df rows Hdf Hbase)
      as (res & ss' & g' & -> & Hpost).
    intros snap s Hss Hs. cbn [snd session_state requests] in *.
    assert (Hregen : regenerated now rows res ss' →
              ∃ l i info0,
                GetInfo (Document info0) ∈ requests w ++ run_requests net w
                ∧ i ∈ info0
                ∧ StationInfo.station_id i = Station.station_id s
                ∧ Station.row s = Row.set_flags (Row.matched l i)).
    { intros Hreg.
      destruct (regenerated_elem_of _ _ _ _ _ _ Hreg Hss Hs)
        as (row & Hrow & Hrs & c & Hc & _).
      destruct (merge_left_elem_of _ _ _ _ Hrows Hrow)
        as (l & _ & [[-> _]|(i & Hi & Hid & ->)]); [done|].
      exists l, i, info. split; [|split; [done|split]].
      - apply elem_of_app. right. unfold run_requests. rewrite Hinfo.
        apply elem_of_app. right. left.
      - unfold Station.station_id, Row.station_id. by rewrite Hrs.
      - done. }
    destruct (session_state w) as [snap0|] eqn:Hw; [|by apply Hregen].
    destruct (refreshing p b); [by apply Hregen|].
    destruct Hpost as (_ & -> & _). injection Hss as <-.
    destruct (Hdesc snap0 s Hw Hs) as (l & i & info0 & Hreq & ?).
    exists l, i, info0. split; [|done]. apply elem_of_app. by left.
  - rewrite (script_run_failed net now p b w e Hbase).
    intros snap s Hss Hs. cbn [snd session_state requests] in *.
    destruct (Hdesc snap s Hss Hs) as (l & i & info0 & Hreq & ?).
    exists l, i, info0. split; [|done]. apply elem_of_app. by left.
Qed.

Lemma reachable_described (w : @world G) : reachable w → described w.
Proof.
  induction 1 as [g|w net now p b _ IH|w _ IH|w _ IH].
  - intros snap s [=].
  - by apply script_described.
  - intros snap s [=].
  - exact IH.
Qed.

(** X11. A station whose id is missing from the information feed never
    enters a snapshot: in every world the application reaches, every
    stored station has the name, latitude, longitude, capacity and region
    of an information record that was fetched and has its station id, so
    none of the first four is null. *)
Theorem stored_stations_have_information (w : @world G) :
  reachable w →
  ∀ snap s, session_state w = Some snap → s ∈ stations snap →
  ∃ i info,
    GetInfo (Document info) ∈ requests w ∧ i ∈ info
    ∧ StationInfo.station_id i = Station.station_id s
    ∧ Station.name s = Some (StationInfo.name i)
    ∧ Station.lat s = Some (StationInfo.lat i)
    ∧ Station.lon s = Some (StationInfo.lon i)
    ∧ Station.capacity s = Some (StationInfo.capacity i)
    ∧ Station.region_id s = StationInfo.region_id i.
Proof.
  intros Hw snap s Hss Hs.
  destruct (reachable_described w Hw snap s Hss Hs)
    as (l & i & info & Hreq & Hi & Hid & Hrow).
  exists i, info. split; [done|]. split; [done|]. split; [done|].
  unfold Station.name, Station.lat, Station.lon, Station.capacity, Station.region_id.
  by rewrite Hrow.
Qed.

(** X12. The generator loop is not all-or-nothing.  When a run enters it
    (nothing is stored, or the refresh button was pressed) and a row has no
    valid capacity, the run raises and leaves a shorter list stored under
    the new timestamp, in place of what was stored before; the next read
    returns that list. *)
Theorem failed_generation_leaves_partial_snapshot
    net now p b (w : @world G) rows :
  session_state w = None ∨ refreshing p b = true →
  stations_base net w = Ok rows →
  ¬ Forall valid_capacity rows →
  ∃ e new,
    (script net now p b w).1 = Raise e
    ∧ session_state (script net now p b w).2
      = Some {| last_update := now; stations := new |}
    ∧ (length new < length rows)%nat
    ∧ ∀ net2 now2 p2 rows2,
        stations_base net2 (script net now p b w).2 = Ok rows2 →
        (getSnapshot net2 now2 p2 (script net now p b w).2).1 = Ok new.
Proof.
  intros Henter Hbase Hbad.
  destruct (stations_base_Ok _ _ _ Hbase) as (df & info & Hdf & _ & _).
  destruct (script_run_loaded net now p b w df rows Hdf Hbase)
    as (res & ss' & g' & Hrun & Hpost).
  assert (Hreg : regenerated now rows res ss').
  { destruct Henter as [Hnone|Hrefresh].
    - by rewrite Hnone in Hpost.
    - rewrite Hrefresh in Hpost. by destruct (session_state w). }
  destruct Hreg as (new & -> & Hgen & _ & [[-> Hlen]|[-> (row & Hrow & _)]]).
  { destruct Hbad. rewrite Hlen, firstn_all in Hgen.
    apply Forall_forall. intros row Hrow.
    apply list_elem_of_lookup in Hrow as [k Hk].
    destruct (Forall2_lookup_l _ _ _ _ _ Hgen Hk) as (s & _ & Hs).
    by eapply generated_valid_capacity. }
  exists ValueError, new. rewrite Hrun. cbn [fst snd session_state].
  split; [done|]. split; [done|].
  split; [by eapply lookup_lt_Some|].
  intros net2 now2 p2 rows2 Hbase2. unfold getSnapshot.
  destruct (stations_base_Ok _ _ _ Hbase2) as (df2 & info2 & Hdf2 & _ & _).
  destruct (script_run_loaded net2 now2 p2 false _ df2 rows2 Hdf2 Hbase2)
    as (res2 & ss2 & g2 & -> & Hpost2).
  cbn [session_state] in Hpost2.
  replace (refreshing p2 false) with false in Hpost2 by by destruct p2.
  by destruct Hpost2 as (-> & _).
Qed.


End Session_facts.

Lemma stored_stations_have_information_witness :
  Forall (λ s, is_Some (Station.lat s) ∧ is_Some (Station.lon s)) Sample.stored.
Proof.
  apply Forall_forall. intros s Hs.
  destruct (stored_stations_have_information Sample.materialized
              sample_materialized_reachable _ s sample_materialized_session Hs)
    as (i & info & _ & _ & _ & _ & Hlat & Hlon & _).
  rewrite Hlat, Hlon. split; by eexists.
Defined.

Lemma failed_generation_leaves_partial_snapshot_witness :
  ∃ e new,
    (script Sample.net_unmatched 1700000100 Dashboard false (initial 7)).1 = Raise e
    ∧ session_state (script Sample.net_unmatched 1700000100 Dashboard false (initial 7)).2
      = Some {| last_update := 1700000100; stations := new |}.
Proof.
  destruct (failed_generation_leaves_partial_snapshot Sample.net_unmatched 1700000100
              Dashboard false (initial 7)
              [Row.unmatched (Sample.status_row "A" 1700000000)])
    as (e & new & Hres & Hss & _).
  - left. reflexivity.
  - vm_compute. reflexivity.
  - intros [[c [Hc _]] _]%Forall_cons. discriminate Hc.
  - exists e, new. split; [exact Hres|exact Hss].
Defined.


(** ** Dashboard metrics *)

Lemma wrap64_small z : - 2 ^ 63 ≤ z < 2 ^ 63 → wrap64 z = z.
Proof. intros Hz. unfold wrap64. rewrite Z.mod_small; lia. Qed.

Lemma sum_nonneg l : Forall (λ z, 0 ≤ z) l → 0 ≤ foldr Z.add 0 l.
Proof. induction 1; simpl; lia. Qed.

Lemma int_column_sum_small l :
  Forall (λ z, 0 ≤ z) l → foldr Z.add 0 l < 2 ^ 63 →
  int_column_sum l = foldr Z.add 0 l.
Proof.
  intros Hpos Hsum.
  assert (Hbound : 0 ≤ foldr Z.add 0 l ∧ Forall (λ z, z ≤ foldr Z.add 0 l) l).
  { clear Hsum. induction Hpos as [|z l Hz _ [IH0 IH]]; simpl.
    - split; [lia|constructor].
    - split; [lia|]. constructor; [lia|].
      eapply Forall_impl; [exact IH|]. simpl. intros; lia. }
  destruct Hbound as [H0 Hle]. unfold int_column_sum.
  assert (forallb in_int64 l = true) as ->.
  { apply forallb_forall. intros z Hz%list_elem_of_In.
    rewrite Forall_forall in Hpos, Hle.
    specialize (Hpos z Hz). specialize (Hle z Hz). unfold in_int64. lia. }
  apply wrap64_small. lia.
Qed.

Section Dashboard_facts.
Context {G : Type} `{RandomGen G}.

(** X14. The Dashboard's metrics over a stored snapshot that is not empty,
    in every world the application reaches: the count of active stations
    is the count of all stations, whatever the feed said of them; and when
    the capacities sum to less than 2^63, the total of bikes and the total
    of docks are not negative and add up to the total capacity. *)
Theorem dashboard_totals (w : @world G) snap :
  reachable w → session_state w = Some snap → stations snap ≠ [] →
  stations_active (stations snap) = Ok (total_stations (stations snap))
  ∧ ∃ caps,
      Station.capacity <$> stations snap = Some <$> caps
      ∧ (foldr Z.add 0 caps < 2 ^ 63 →
         ∃ bikes docks,
           total_bikes (stations snap) = Ok bikes
           ∧ total_docks (stations snap) = Ok docks
           ∧ 0 ≤ bikes ∧ 0 ≤ docks
           ∧ bikes + docks = foldr Z.add 0 caps).
Proof.
  intros Hw Hss Hne.
  assert (Hall : Forall (λ s, Station.is_renting s = true
                   ∧ ∃ c, Station.capacity s = Some c
                       ∧ 0 ≤ Station.bikes_available s ≤ c
                       ∧ Station.docks_available s = c - Station.bikes_available s)
                  (stations snap)).
  { apply Forall_forall. intros s Hs.
    destruct (proj2 (reachable_provenance w Hw) snap s Hss Hs)
      as (row & _ & (Hrow & c & Hc & Hb & Hd) & _).
    split.
    - unfold Station.is_renting. by rewrite Hrow.
    - exists c. split; [|done]. unfold Station.capacity. by rewrite Hrow. }
  unfold stations_active, total_bikes, total_docks, total_stations, column.
  destruct (stations snap) as [|s0 sts] eqn:Hsts; [done|].
  rewrite <-Hsts in *. clear Hsts Hne. simpl.
  split.
  { f_equal. induction Hall as [|s l [Hr _] _ IH]; [done|].
    rewrite fmap_cons, filter_cons_True by done. simpl. by rewrite IH. }
  assert (Hsums : ∃ caps,
            Station.capacity <$> stations snap = Some <$> caps
            ∧ Forall (λ z, 0 ≤ z) (Station.bikes_available <$> stations snap)
            ∧ Forall (λ z, 0 ≤ z) (Station.docks_available <$> stations snap)
            ∧ foldr Z.add 0 (Station.bikes_available <$> stations snap)
              + foldr Z.add 0 (Station.docks_available <$> stations snap)
              = foldr Z.add 0 caps).
  { induction Hall as [|s l [_ (c & Hc & Hb & Hd)] _ (caps & IHc & IHb & IHd & IH)].
    - exists []. split; [done|]. split; [constructor|]. split; [constructor|done].
    - exists (c :: caps). rewrite !fmap_cons, Hc, IHc. split; [done|].
      split; [constructor; [lia|done]|]. split; [constructor; [lia|done]|].
      simpl. lia. }
  destruct Hsums as (caps & Hcaps & Hbikes & Hdocks & Hsum).
  exists caps. split; [done|]. intros Hlt.
  pose proof (sum_nonneg _ Hbikes). pose proof (sum_nonneg _ Hdocks).
  eexists _, _. split; [reflexivity|]. split; [reflexivity|].
  rewrite !int_column_sum_small by (done || lia). lia.
Qed.

End Dashboard_facts.

Lemma dashboard_totals_witness :
  stations_active Sample.stored = Ok (length Sample.stored).
Proof.
  exact (proj1 (dashboard_totals Sample.materialized
                  {| last_update := 1700000100; stations := Sample.stored |}
                  sample_materialized_reachable sample_materialized_session
                  ltac:(discriminate))).
Defined.

(** ** Search page *)

Lemma unique_seen_elem_of {A : Type} `{EqDecision A} (seen l : list A) x :
  x ∈ unique_seen seen l ↔ x ∈ l ∧ x ∉ seen.
Proof.
  revert seen. induction l as [|y l IH]; intros seen; simpl.
  - split; [by intros ?%elem_of_nil|by intros [?%elem_of_nil _]].
  - destruct (decide (y ∈ seen)) as [Hy|Hy].
    + rewrite IH, elem_of_cons. split; [intros [? ?]; split; [by right|done]|].
      intros [[->|?] ?]; [done|by split].
    + rewrite !elem_of_cons, IH, elem_of_cons. split.
      * intros [->|[? ?]]; [by split; [left|]|]. split; [by right|tauto].
      * intros [[->|Hx] Hseen]; [by left|].
        destruct (decide (x = y)) as [->|Hne]; [by left|]. right. tauto.
Qed.

Lemma unique_seen_NoDup {A : Type} `{EqDecision A} (seen l : list A) :
  NoDup (unique_seen seen l).
Proof.
  revert seen. induction l as [|y l IH]; intros seen; simpl; [constructor|].
  destruct (decide (y ∈ seen)); [done|]. constructor; [|done].
  rewrite unique_seen_elem_of, elem_of_cons. tauto.
Qed.

Lemma filter_name_first (sts : list Station.t) (a : string) :
  Some a ∈ Station.name <$> sts →
  ∃ pre s post,
    sts = pre ++ s :: post
    ∧ filter (λ s, name_eq (Station.name s) (Some a) = true) sts
      = s :: filter (λ s, name_eq (Station.name s) (Some a) = true) post
    ∧ Station.name s = Some a
    ∧ ∀ s', s' ∈ pre → Station.name s' ≠ Some a.
Proof.
  induction sts as [|s0 sts IH]; [by intros ?%elem_of_nil|].
  rewrite fmap_cons. intros Hin.
  destruct (decide (Station.name s0 = Some a)) as [Hs0|Hs0].
  - exists [], s0, sts. split; [done|]. split; [|split; [done|]].
    + rewrite filter_cons_True; [done|]. rewrite Hs0. simpl. by apply bool_decide_eq_true.
    + by intros s' ?%elem_of_nil.
  - apply elem_of_cons in Hin as [Hin|Hin]; [done|].
    destruct (IH Hin) as (pre & s & post & -> & Hfilter & Hs & Hpre).
    exists (s0 :: pre), s, post. split; [done|]. split; [|split; [done|]].
    + rewrite filter_cons_False; [done|].
      destruct (Station.name s0) as [b|]; simpl; [|done].
      intros Hb%bool_decide_eq_true. by subst.
    + intros s' [->|Hs']%elem_of_cons; [done|by apply Hpre].
Qed.

Section Search_facts.
Context {G : Type} `{RandomGen G}.

(** X15. The Search page on a stored snapshot, in every world the
    application reaches: the select box offers every station's name once,
    and whichever name is selected, the lookup raises no IndexError and
    shows the first stored station of that name; a later station of the
    same name cannot be looked up. *)
Theorem search_shows_first_station_of_name (w : @world G) snap names :
  reachable w → session_state w = Some snap →
  station_names (stations snap) = Ok names →
  NoDup names
  ∧ (∀ s, s ∈ stations snap → Station.name s ∈ names)
  ∧ ∀ station_name, station_name ∈ names →
      ∃ pre s post,
        stations snap = pre ++ s :: post
        ∧ station_data (stations snap) station_name = Return s
        ∧ Station.name s = station_name
        ∧ ∀ s', s' ∈ pre → Station.name s' ≠ station_name.
Proof.
  intros Hw Hss. unfold station_names, station_data, column.
  destruct (stations snap) as [|s0 sts] eqn:Hsts; [done|].
  rewrite <-Hsts. simpl. intros [= <-].
  split; [apply unique_seen_NoDup|]. split.
  { intros s Hs. apply unique_seen_elem_of. split; [|by intros ?%elem_of_nil].
    by apply list_elem_of_fmap_2. }
  intros station_name [Hin _]%unique_seen_elem_of.
  assert (∃ a, station_name = Some a) as [a ->].
  { apply list_elem_of_fmap in Hin as (s & -> & Hs).
    destruct (reachable_described w Hw snap s Hss Hs) as (l & i & _ & _ & _ & _ & Hrow).
    exists (StationInfo.name i). unfold Station.name. by rewrite Hrow. }
  destruct (filter_name_first _ _ Hin) as (pre & s & post & Heq & Hfilter & Hs & Hpre).
  exists pre, s, post. by rewrite Hfilter.
Qed.

End Search_facts.

Lemma search_shows_first_station_of_name_witness :
  ∃ names, station_names Sample.stored = Ok names ∧ NoDup names.
Proof.
  eexists. split; [reflexivity|].
  exact (proj1 (search_shows_first_station_of_name Sample.materialized
                  {| last_update := 1700000100; stations := Sample.stored |} _
                  sample_materialized_reachable sample_materialized_session
                  eq_refl)).
Defined.
